(** * Signal-detection engine of yurei-quant-insight

    A shallow embedding of [src/analysis/metrics.py] (the volume-spike and
    whale-accumulation detectors), of the signal records of
    [src/models/signals.py] and of the defaults of [src/config/settings.py],
    followed by the code around the detectors: the reads of
    [src/analysis/ingestion.py] on a table of [src/db/models.py], the cycle
    of [src/analysis/analyzer.py], the console of [src/output/console.py]
    and the runner of [main.py].

    Modelling conventions.
    - A Polars frame is the list of its rows, in frame order.
    - [observed_at] has Polars type [Datetime("us", "UTC")]: an integer count
      of microseconds, here a [Z].
    - The [Float64] quantities (amounts, reserves, thresholds) are exact
      rationals [Q]; binary rounding is not modelled.  The one non-finite
      value the detectors build, [float("inf")], is the constructor [PInf]
      of [pyfloat].
    - Python computations live in the monad [py]: an outcome (a value or a
      raised exception) together with the number of float divisions that
      were executed.
    - The wall clock read by [datetime.now] is an explicit argument [now].
    - Datetime arithmetic is arithmetic on [Z]; the [OverflowError] Python
      raises when a result leaves the datetime range is not modelled, and a
      property that needs the result to exist says so with [representable].
    - A frame operation returns one list; where Polars leaves an order open
      (the groups of [group_by]), properties that compare two calls are
      stated up to permutation.
    - The presentation-only fields [description] and [timestamp] of a signal
      are left out, as are the columns [slot] and [tx_signature], which no
      detector reads.
    - The database is a list of rows; a read is the evaluation of its query
      on that list.  What reaches the program from outside (the answer of
      the health check, a failing read, the delivery of a signal) is an
      argument of the function that meets it. *)

From Stdlib Require Import List String ZArith QArith Lqa Lia Bool Arith.
From Stdlib Require Import DecimalString Permutation.
Import ListNotations.

Local Open Scope Z_scope.

(** ** Python computations *)

Inductive exn : Type :=
| ZeroDivisionError
| ValidationError.

Inductive result (A : Type) : Type :=
| Ok (a : A)
| Raise (e : exn).

Arguments Ok {A} a.
Arguments Raise {A} e.

Record py (A : Type) : Type := mkPy {
  divisions : nat;
  outcome : result A
}.

Arguments mkPy {A} divisions outcome.
Arguments divisions {A} p.
Arguments outcome {A} p.

Definition ret {A : Type} (a : A) : py A := mkPy 0 (Ok a).

Definition raise {A : Type} (e : exn) : py A := mkPy 0 (Raise e).

Definition bind {A B : Type} (m : py A) (k : A -> py B) : py B :=
  match outcome m with
  | Ok a => mkPy (divisions m + divisions (k a)) (outcome (k a))
  | Raise e => mkPy (divisions m) (Raise e)
  end.

Declare Scope py_scope.
Delimit Scope py_scope with py.
Notation "x <- m ;; k" := (bind m (fun x => k))
  (at level 61, m at next level, right associativity) : py_scope.

(** [for row in rows: signals.append(f(row))], stopping at the first
    exception. *)
Fixpoint for_each {A B : Type} (f : A -> py B) (rows : list A) : py (list B) :=
  match rows with
  | [] => ret []
  | row :: rest =>
      bind (f row) (fun s => bind (for_each f rest) (fun ss => ret (s :: ss)))
  end.

(** ** Floats *)

(** A Python float that is either finite or [float("inf")]. *)
Inductive pyfloat : Type :=
| Fin (q : Q)
| PInf.

Definition Qlt_bool (x y : Q) : bool := negb (Qle_bool y x).

(** [x >= q] for a float [x] and a finite [q]. *)
Definition float_ge (x : pyfloat) (q : Q) : bool :=
  match x with
  | PInf => true
  | Fin v => Qle_bool q v
  end.

(** [a / b] on floats: raises [ZeroDivisionError] when [b] is zero. *)
Definition truediv (a b : Q) : py Q :=
  if Qeq_bool b 0 then mkPy 1 (Raise ZeroDivisionError)
  else mkPy 1 (Ok (a / b)%Q).

(** [x or 0.0]: a falsy float (zero) is replaced by the default. *)
Definition or_float (x d : Q) : Q := if Qeq_bool x 0 then d else x.

(** [n or 0] on a count. *)
Definition or_count (n d : nat) : nat := if Nat.eqb n 0 then d else n.

(** Truthiness of an optional float: [None] and zero are falsy. *)
Definition truthy (x : option Q) : bool :=
  match x with
  | None => false
  | Some q => negb (Qeq_bool q 0)
  end.

(** ** Time *)

Definition datetime : Type := Z.

(** [timedelta(minutes=n)] in microseconds. *)
Definition timedelta_minutes (n : Z) : Z := n * 60000000.

(** ** Settings (src/config/settings.py) *)

Record Settings : Type := {
  analysis_interval_seconds : Z;
  lookback_minutes : Z;
  volume_spike_threshold : Q;
  whale_sol_threshold : Q;
  whale_first_minutes : Z
}.

Definition settings : Settings := {|
  analysis_interval_seconds := 30;
  lookback_minutes := 20;
  volume_spike_threshold := 300;
  whale_sol_threshold := 10;
  whale_first_minutes := 5
|}.

(** ** Trade rows and frames *)

Record Trade : Type := {
  observed_at : datetime;
  mint : string;
  trader : string;
  is_buy : bool;
  sol_amount : Q;
  token_amount : Q;
  virtual_sol_reserves : option Q;
  virtual_token_reserves : option Q
}.

Definition LazyFrame : Type := list Trade.

Module Polars.

(** [pl.col(c).sum()]: zero on an empty column. *)
Definition col_sum (xs : list Q) : Q := fold_right Qplus 0%Q xs.

(** [pl.len()] and [DataFrame.height]. *)
Definition height {A : Type} (rows : list A) : nat := List.length rows.

(** [min()] and [max()] of a datetime column: null on an empty one. *)
Definition col_min (xs : list Z) : option Z :=
  match xs with
  | [] => None
  | x :: rest => Some (fold_right Z.min x rest)
  end.

Definition col_max (xs : list Z) : option Z :=
  match xs with
  | [] => None
  | x :: rest => Some (fold_right Z.max x rest)
  end.

(** [pl.col(c).last()] on a nullable column: the value of the last row in
    frame order, null on an empty column. *)
Definition col_last {A : Type} (xs : list (option A)) : option A :=
  last xs None.

(** [group_by(key)]: one group per distinct key, the rows of a group in
    frame order.  Polars leaves the order of the groups unspecified; the
    groups are listed here by the last occurrence of their key. *)
Definition group_by (key : Trade -> string) (rows : list Trade)
  : list (string * list Trade) :=
  map (fun k => (k, filter (fun r => String.eqb (key r) k) rows))
      (nodup string_dec (map key rows)).

End Polars.

(** ** Signals (src/models/signals.py) *)

Inductive SignalSeverity : Type :=
| LOW
| MEDIUM
| HIGH
| CRITICAL.

Definition severity_rank (s : SignalSeverity) : nat :=
  match s with
  | LOW => 0
  | MEDIUM => 1
  | HIGH => 2
  | CRITICAL => 3
  end.

Record VolumeSignal : Type := {
  vs_severity : SignalSeverity;
  vs_mint : string;
  recent_volume_sol : Q;
  baseline_volume_sol : Q;
  spike_percentage : pyfloat;
  trade_count_recent : nat;
  trade_count_baseline : nat
}.

Record WhaleSignal : Type := {
  ws_severity : SignalSeverity;
  ws_mint : string;
  trader_address : string;
  total_sol_accumulated : Q;
  total_tokens_accumulated : Q;
  trade_count : nat;
  first_trade_at : datetime;
  last_trade_at : datetime;
  estimated_market_cap_sol : option Q
}.

(** ** Volume spike detector *)

Module VolumeMetrics.

Local Open Scope py_scope.

Record WindowStats : Type := {
  volume_sol : Q;
  window_count : nat
}.

(** [.filter(is_buy == True).select([sol_amount.sum(), len()])] *)
Definition buy_stats (rows : list Trade) : WindowStats :=
  let buys := filter is_buy rows in
  {| volume_sol := Polars.col_sum (map sol_amount buys);
     window_count := Polars.height buys |}.

(** Lines 44-58: the rows of [mint] at or after [recent_cutoff]. *)
Definition recent_trades (now : datetime) (trades_lf : LazyFrame)
    (mint_ : string) (recent_minutes : Z) : list Trade :=
  let recent_cutoff := now - timedelta_minutes recent_minutes in
  let mint_trades := filter (fun r => String.eqb (mint r) mint_) trades_lf in
  filter (fun r => recent_cutoff <=? observed_at r) mint_trades.

(** Lines 44-58: the rows of [mint] in [[baseline_cutoff, recent_cutoff)]. *)
Definition baseline_trades (now : datetime) (trades_lf : LazyFrame)
    (mint_ : string) (recent_minutes baseline_minutes : Z) : list Trade :=
  let recent_cutoff := now - timedelta_minutes recent_minutes in
  let baseline_cutoff :=
    now - timedelta_minutes (recent_minutes + baseline_minutes) in
  let mint_trades := filter (fun r => String.eqb (mint r) mint_) trades_lf in
  filter (fun r => (baseline_cutoff <=? observed_at r)
                   && (observed_at r <? recent_cutoff)) mint_trades.

(** Lines 81 and 83: the volumes the decision is taken on. *)
Definition recent_volume (now : datetime) (trades_lf : LazyFrame)
    (mint_ : string) (recent_minutes : Z) : Q :=
  or_float
    (volume_sol (buy_stats (recent_trades now trades_lf mint_ recent_minutes)))
    0.

Definition baseline_volume (now : datetime) (trades_lf : LazyFrame)
    (mint_ : string) (recent_minutes baseline_minutes : Z) : Q :=
  or_float
    (volume_sol (buy_stats
       (baseline_trades now trades_lf mint_ recent_minutes baseline_minutes)))
    0.

(** Lines 86-94.  [None] stands for the early [return None]. *)
Definition compute_spike_percentage (recent_volume baseline_volume : Q)
  : py (option pyfloat) :=
  if Qeq_bool baseline_volume 0 then
    if Qlt_bool 0 recent_volume then ret (Some PInf)
    else ret None
  else
    d <- truediv (recent_volume - baseline_volume)%Q baseline_volume ;;
    ret (Some (Fin (d * 100)%Q)).

(** Lines 98-106. *)
Definition spike_severity (spike : pyfloat) : SignalSeverity :=
  if float_ge spike 1000 then CRITICAL
  else if float_ge spike 500 then HIGH
  else if float_ge spike 300 then MEDIUM
  else LOW.

(** Lines 86-122: the decision, given the window statistics. *)
Definition spike_signal (mint_ : string) (threshold_percent : Q)
    (recent_volume : Q) (recent_count : nat)
    (baseline_volume : Q) (baseline_count : nat)
  : py (option VolumeSignal) :=
  spike <- compute_spike_percentage recent_volume baseline_volume ;;
  match spike with
  | None => ret None
  | Some spike =>
      if float_ge spike threshold_percent then
        ret (Some {| vs_severity := spike_severity spike;
                     vs_mint := mint_;
                     recent_volume_sol := recent_volume;
                     baseline_volume_sol := baseline_volume;
                     spike_percentage := spike;
                     trade_count_recent := recent_count;
                     trade_count_baseline := baseline_count |})
      else ret None
  end.

Definition detect_volume_spike (now : datetime) (trades_lf : LazyFrame)
    (mint_ : string) (recent_minutes baseline_minutes : Z)
    (threshold_percent : option Q) : py (option VolumeSignal) :=
  let threshold_percent :=
    match threshold_percent with
    | None => volume_spike_threshold settings
    | Some t => t
    end in
  let recent_stats :=
    buy_stats (recent_trades now trades_lf mint_ recent_minutes) in
  let baseline_stats :=
    buy_stats
      (baseline_trades now trades_lf mint_ recent_minutes baseline_minutes) in
  spike_signal mint_ threshold_percent
    (or_float (volume_sol recent_stats) 0)
    (or_count (window_count recent_stats) 0)
    (or_float (volume_sol baseline_stats) 0)
    (or_count (window_count baseline_stats) 0).

End VolumeMetrics.


(** ** Whale accumulation detector *)

Module WhaleMetrics.

Local Open Scope py_scope.

(** One row of the aggregated frame [whale_candidates] (lines 185-194).
    [min], [max] and [last] are nullable in Polars. *)
Record Candidate : Type := {
  cand_trader : string;
  total_sol : Q;
  total_tokens : Q;
  cand_trade_count : nat;
  first_trade : option datetime;
  last_trade : option datetime;
  last_sol_reserves : option Q;
  last_token_reserves : option Q
}.

(** The [agg] of lines 186-194 on one group. *)
Definition aggregate (g : string * list Trade) : Candidate :=
  let rows := snd g in
  {| cand_trader := fst g;
     total_sol := Polars.col_sum (map sol_amount rows);
     total_tokens := Polars.col_sum (map token_amount rows);
     cand_trade_count := Polars.height rows;
     first_trade := Polars.col_min (map observed_at rows);
     last_trade := Polars.col_max (map observed_at rows);
     last_sol_reserves := Polars.col_last (map virtual_sol_reserves rows);
     last_token_reserves := Polars.col_last (map virtual_token_reserves rows) |}.

(** Lines 182-196. *)
Definition whale_candidates (early_trades : list Trade) (sol_threshold : Q)
  : list Candidate :=
  filter (fun c => Qle_bool sol_threshold (total_sol c))
    (map aggregate (Polars.group_by trader (filter is_buy early_trades))).

(** Lines 202-205: [if row[...] and row[...]] tests truthiness. *)
Definition market_cap (row : Candidate) : option Q :=
  if truthy (last_sol_reserves row) && truthy (last_token_reserves row)
  then last_sol_reserves row
  else None.

(** Lines 208-216. *)
Definition whale_severity (total_sol : Q) : SignalSeverity :=
  if Qle_bool 50 total_sol then CRITICAL
  else if Qle_bool 25 total_sol then HIGH
  else if Qle_bool 15 total_sol then MEDIUM
  else LOW.

(** Lines 200-233, the body of the loop.  [first_trade_at] and
    [last_trade_at] are required [datetime] fields: the model validation
    rejects a null. *)
Definition make_signal (mint_ : string) (row : Candidate) : py WhaleSignal :=
  match first_trade row, last_trade row with
  | Some first, Some last =>
      ret {| ws_severity := whale_severity (total_sol row);
             ws_mint := mint_;
             trader_address := cand_trader row;
             total_sol_accumulated := total_sol row;
             total_tokens_accumulated := total_tokens row;
             trade_count := cand_trade_count row;
             first_trade_at := first;
             last_trade_at := last;
             estimated_market_cap_sol := market_cap row |}
  | _, _ => raise ValidationError
  end.

Definition detect_whale_accumulation (trades_lf : LazyFrame) (mint_ : string)
    (first_minutes : option Z) (sol_threshold : option Q)
  : py (list WhaleSignal) :=
  let first_minutes :=
    match first_minutes with
    | None => whale_first_minutes settings
    | Some m => m
    end in
  let sol_threshold :=
    match sol_threshold with
    | None => whale_sol_threshold settings
    | Some t => t
    end in
  let mint_trades := filter (fun r => String.eqb (mint r) mint_) trades_lf in
  if Nat.eqb (Polars.height mint_trades) 0 then ret []
  else
    match Polars.col_min (map observed_at mint_trades) with
    | None => ret []
    | Some first_trade_time =>
        let window_end := first_trade_time + timedelta_minutes first_minutes in
        let early_trades :=
          filter (fun r => observed_at r <=? window_end) mint_trades in
        if Nat.eqb (Polars.height early_trades) 0 then ret []
        else
          for_each (make_signal mint_)
                   (whale_candidates early_trades sol_threshold)
    end.

End WhaleMetrics.

(** ** Vocabulary of the specification *)

Module Spec.

(** The launch-time proxy: the minimum [observed_at] among the trades of the
    mint, when there is one. *)
Definition launch_time (trades_lf : LazyFrame) (mint_ : string)
  : option datetime :=
  Polars.col_min
    (map observed_at (filter (fun r => String.eqb (mint r) mint_) trades_lf)).

(** The effective parameters of the whale detector. *)
Definition first_window (first_minutes : option Z) : Z :=
  timedelta_minutes
    match first_minutes with
    | None => whale_first_minutes settings
    | Some m => m
    end.

Definition threshold_of (sol_threshold : option Q) : Q :=
  match sol_threshold with
  | None => whale_sol_threshold settings
  | Some t => t
  end.

(** The buy-direction trades of [trader_] on [mint_] observed no later than
    [window_end], in frame order. *)
Definition buys_until (trades_lf : LazyFrame) (mint_ trader_ : string)
    (window_end : datetime) : list Trade :=
  filter (fun r => String.eqb (mint r) mint_
                   && (observed_at r <=? window_end)
                   && is_buy r
                   && String.eqb (trader r) trader_) trades_lf.

(** The same trades, when the window is half-open. *)
Definition buys_before (trades_lf : LazyFrame) (mint_ trader_ : string)
    (window_end : datetime) : list Trade :=
  filter (fun r => String.eqb (mint r) mint_
                   && (observed_at r <? window_end)
                   && is_buy r
                   && String.eqb (trader r) trader_) trades_lf.

(** A frame as the storage layer returns it: ordered by [observed_at]
    descending. *)
Fixpoint ordered_desc (rows : list Trade) : Prop :=
  match rows with
  | [] => True
  | r :: rest =>
      Forall (fun r' => observed_at r' <= observed_at r) rest
      /\ ordered_desc rest
  end.

(** The signals of a list that are about one trader. *)
Definition signals_of (trader_ : string) (signals : list WhaleSignal)
  : list WhaleSignal :=
  filter (fun s => String.eqb (trader_address s) trader_) signals.

Definition severity_le (a b : SignalSeverity) : Prop :=
  (severity_rank a <= severity_rank b)%nat.

(** The signal that [spike_signal] builds when the trigger fires. *)
Definition fired (mint_ : string) (rv : Q) (rc : nat) (bv : Q) (bc : nat)
    (spike : pyfloat) : VolumeSignal :=
  {| vs_severity := VolumeMetrics.spike_severity spike;
     vs_mint := mint_;
     recent_volume_sol := rv;
     baseline_volume_sol := bv;
     spike_percentage := spike;
     trade_count_recent := rc;
     trade_count_baseline := bc |}.

(** The effective trigger threshold of the volume detector. *)
Definition volume_threshold_of (threshold_percent : option Q) : Q :=
  match threshold_percent with
  | None => volume_spike_threshold settings
  | Some t => t
  end.

(** The data model: amounts are non-negative. *)
Definition well_formed (trades_lf : LazyFrame) : Prop :=
  Forall (fun r => (0 <= sol_amount r)%Q /\ (0 <= token_amount r)%Q) trades_lf.

(** The trades the whale detector aggregates over: the trades of the mint
    observed no later than the launch time plus the first window. *)
Definition early_trades (trades_lf : LazyFrame) (mint_ : string)
    (first_minutes : option Z) : list Trade :=
  match launch_time trades_lf mint_ with
  | None => []
  | Some launch =>
      filter (fun r => String.eqb (mint r) mint_
                       && (observed_at r
                           <=? launch + first_window first_minutes))
             trades_lf
  end.

(** The buy-direction trades of a trader within the detection window the
    detector uses. *)
Definition window_buys (trades_lf : LazyFrame) (mint_ : string)
    (first_minutes : option Z) (trader_ : string) : list Trade :=
  match launch_time trades_lf mint_ with
  | None => []
  | Some launch =>
      buys_until trades_lf mint_ trader_ (launch + first_window first_minutes)
  end.

(** The batch without the trades of the mint observed after [window_end]. *)
Definition without_late (trades_lf : LazyFrame) (mint_ : string)
    (window_end : datetime) : LazyFrame :=
  filter (fun r => negb (String.eqb (mint r) mint_
                         && (window_end <? observed_at r))) trades_lf.

(** A reserve value that is null or zero. *)
Definition null_or_zero (x : option Q) : Prop :=
  match x with
  | None => True
  | Some q => (q == 0)%Q
  end.

(** [datetime.min] and [datetime.max] in microseconds since the epoch.  A
    datetime outside this range cannot be built: the arithmetic that would
    produce it raises [OverflowError]. *)
Definition datetime_min : Z := -62135596800000000.

Definition datetime_max : Z := 253402300799999999.

Definition representable (t : Z) : Prop := datetime_min <= t <= datetime_max.

End Spec.

(** ** Concrete batches *)

Module Scenarios.

Definition minute : Z := 60000000.

Definition buy (at_ : datetime) (trader_ : string) (sol : Q)
    (sol_reserves token_reserves : option Q) : Trade :=
  {| observed_at := at_; mint := "MINT"; trader := trader_; is_buy := true;
     sol_amount := sol; token_amount := (sol * 1000)%Q;
     virtual_sol_reserves := sol_reserves;
     virtual_token_reserves := token_reserves |}.

Definition sell (at_ : datetime) (trader_ : string) (sol : Q) : Trade :=
  {| observed_at := at_; mint := "MINT"; trader := trader_; is_buy := false;
     sol_amount := sol; token_amount := (sol * 1000)%Q;
     virtual_sol_reserves := Some 30%Q;
     virtual_token_reserves := Some 1000000%Q |}.

(** The clock of the volume scenarios: recent window from minute 15,
    baseline window from minute 0 to minute 15. *)
Definition now : datetime := 20 * minute.

(** Scenario A: 100 bought in the baseline window, 500 in the recent one. *)
Definition scenario_a : LazyFrame :=
  [ buy (17 * minute) "alice" 300 (Some 40%Q) (Some 900000%Q);
    buy (16 * minute) "bob" 200 (Some 35%Q) (Some 950000%Q);
    sell (16 * minute) "carol" 50;
    buy (5 * minute) "alice" 100 (Some 30%Q) (Some 1000000%Q) ].

(** The same baseline with twice the recent volume. *)
Definition scenario_a_doubled : LazyFrame :=
  [ buy (17 * minute) "alice" 600 (Some 40%Q) (Some 900000%Q);
    buy (16 * minute) "bob" 400 (Some 35%Q) (Some 950000%Q);
    sell (16 * minute) "carol" 50;
    buy (5 * minute) "alice" 100 (Some 30%Q) (Some 1000000%Q) ].



(** A buy exactly five minutes after the first trade of the mint. *)
Definition boundary_trade : Trade :=
  buy (5 * minute) "alice" 10 (Some 31%Q) (Some 990000%Q).

Definition boundary_batch : LazyFrame :=
  [ buy (5 * minute + 1) "alice" 40 (Some 32%Q) (Some 980000%Q);
    boundary_trade;
    buy 0 "alice" 1 (Some 30%Q) (Some 1000000%Q) ].

(** Two buys of one trader, newest row first as the storage layer returns
    them; the reserves grow from 100 to 200. *)
Definition two_buys_desc : LazyFrame :=
  [ buy (2 * minute) "alice" 6 (Some 200%Q) (Some 500000%Q);
    buy 0 "alice" 6 (Some 100%Q) (Some 1000000%Q) ].

(** A qualifying trader whose last row carries a zero SOL reserve. *)
Definition zero_reserve_batch : LazyFrame :=
  [ buy 0 "alice" 12 (Some 0%Q) (Some 1000000%Q) ].

(** Scenario C: 20 SOL bought within five minutes of the launch. *)
Definition scenario_c : LazyFrame :=
  [ buy (3 * minute) "xavier" 12 (Some 42%Q) (Some 700000%Q);
    sell (2 * minute) "xavier" 30;
    buy (1 * minute) "xavier" 8 (Some 38%Q) (Some 800000%Q);
    buy 0 "yolanda" 9 (Some 30%Q) (Some 1000000%Q) ].

(** A trader who only sells. *)
Definition seller_batch : LazyFrame :=
  [ sell (1 * minute) "zed" 30;
    buy 0 "yolanda" 9 (Some 30%Q) (Some 1000000%Q) ].

(** The default parameters of the whale detector, given explicitly. *)
Definition five_minutes : option Z := Some 5%Z.

Definition ten_sol : option Q := Some 10%Q.

End Scenarios.

(** ** Signals as the orchestrator handles them *)

(** [AlphaSignal] with its two subclasses, as a closed sum. *)
Inductive AlphaSignal : Type :=
| VolumeSpike (s : VolumeSignal)
| WhaleWatch (s : WhaleSignal).

Definition signal_severity (signal : AlphaSignal) : SignalSeverity :=
  match signal with
  | VolumeSpike s => vs_severity s
  | WhaleWatch s => ws_severity s
  end.

Definition signal_mint (signal : AlphaSignal) : string :=
  match signal with
  | VolumeSpike s => vs_mint s
  | WhaleWatch s => ws_mint s
  end.

(** [str(n)] for a count. *)
Definition str_of_nat (n : nat) : string :=
  NilZero.string_of_uint (Nat.to_uint n).

(** ** Console (src/output/console.py) *)

Module SignalConsole.

(** What one logging method prints.  Colour markup, icons, the wall-clock
    prefix of a line and the JSON body of a panel are not modelled; a panel
    keeps the border style and the signal it shows. *)
Inductive Printed : Type :=
| Panel (border_style : string) (signal : AlphaSignal)
| Info (message : string)
| Error (message : string)
| Success (message : string)
| Summary (signal_count : nat)
| Startup (version : string) (interval : Z)
| Shutdown (total : nat)
| Blank.

Record Console : Type := {
  printed : list Printed;
  signal_count : nat
}.

(** [__init__]. *)
Definition init : Console := {| printed := []; signal_count := 0 |}.

Definition SEVERITY_STYLES : list (SignalSeverity * string) :=
  [ (LOW, "dim white"%string); (MEDIUM, "yellow"%string);
    (HIGH, "bold orange1"%string); (CRITICAL, "bold red blink"%string) ].

Definition severity_eqb (a b : SignalSeverity) : bool :=
  Nat.eqb (severity_rank a) (severity_rank b).

(** [dict.get(key, default)]. *)
Fixpoint get (d : list (SignalSeverity * string)) (key : SignalSeverity)
    (default : string) : string :=
  match d with
  | [] => default
  | (k, v) :: rest => if severity_eqb k key then v else get rest key default
  end.

Definition print (item : Printed) (c : Console) : Console :=
  {| printed := (printed c ++ [item])%list;
     signal_count := signal_count c |}.

Definition log_signal (signal : AlphaSignal) (c : Console) : Console :=
  let c := {| printed := printed c; signal_count := S (signal_count c) |} in
  let style := get SEVERITY_STYLES (signal_severity signal) "white" in
  print (Panel style signal) c.

Definition log_info (message : string) (c : Console) : Console :=
  print (Info message) c.

Definition log_error (message : string) (c : Console) : Console :=
  print (Error message) c.

Definition log_success (message : string) (c : Console) : Console :=
  print (Success message) c.

Definition log_summary (signal_count : nat) (c : Console) : Console :=
  print (Summary signal_count) c.

Definition log_startup (version : string) (interval : Z) (c : Console)
  : Console :=
  print (Startup version interval) c.

Definition log_shutdown (c : Console) : Console :=
  print (Shutdown (signal_count c)) c.

(** The members of a [SignalConsole]: the two tables of the class, the
    methods it defines and the two attributes [__init__] sets.  Its only
    base class is [object], whose own attributes all have names of the form
    [__name__]. *)
Inductive Member : Type :=
| TableStyles
| TableIcons
| MethodInit
| MethodGetTimestamp
| MethodLogSignal
| MethodLogInfo
| MethodLogError
| MethodLogSuccess
| MethodLogSummary
| MethodLogStartup
| MethodLogShutdown
| FieldConsole
| FieldSignalCount.

Definition members : list (string * Member) :=
  [ ("SEVERITY_STYLES"%string, TableStyles);
    ("SEVERITY_ICONS"%string, TableIcons);
    ("__init__"%string, MethodInit);
    ("_get_timestamp"%string, MethodGetTimestamp);
    ("log_signal"%string, MethodLogSignal);
    ("log_info"%string, MethodLogInfo);
    ("log_error"%string, MethodLogError);
    ("log_success"%string, MethodLogSuccess);
    ("log_summary"%string, MethodLogSummary);
    ("log_startup"%string, MethodLogStartup);
    ("log_shutdown"%string, MethodLogShutdown);
    ("console"%string, FieldConsole);
    ("_signal_count"%string, FieldSignalCount) ].

(** Attribute look-up by name. *)
Fixpoint getattr (table : list (string * Member)) (name : string)
  : option Member :=
  match table with
  | [] => None
  | (n, m) :: rest => if String.eqb n name then Some m else getattr rest name
  end.

Inductive CallError : Type :=
| AttributeError (name : string)
| TypeError (name : string).

(** [signal_console.name()]: a call without arguments.  A missing attribute
    raises [AttributeError]; a method that needs arguments and a member that
    is not callable raise [TypeError]. *)
Definition call_without_arguments (name : string) (c : Console)
  : Console * option CallError :=
  match getattr members name with
  | None => (c, Some (AttributeError name))
  | Some MethodLogShutdown => (log_shutdown c, None)
  | Some MethodGetTimestamp => (c, None)
  | Some MethodInit => ({| printed := printed c; signal_count := 0 |}, None)
  | Some _ => (c, Some (TypeError name))
  end.

End SignalConsole.

(** ** Ingestion (src/analysis/ingestion.py, src/db/models.py) *)

Module DataIngestionService.

(** A row of the table [pumpfun_trades]; every column is [nullable=False]. *)
Record PumpfunTrade : Type := {
  db_observed_at : datetime;
  db_slot : Z;
  db_tx_signature : string;
  db_mint : string;
  db_trader : string;
  db_is_buy : bool;
  db_sol_amount : Q;
  db_token_amount : Q;
  db_virtual_sol_reserves : Q;
  db_virtual_token_reserves : Q
}.

(** [ORDER BY observed_at DESC], by insertion.  SQL leaves the order of rows
    with equal [observed_at] open; here they keep their table order. *)
Fixpoint insert_desc (row : PumpfunTrade) (sorted : list PumpfunTrade)
  : list PumpfunTrade :=
  match sorted with
  | [] => [row]
  | r :: rest =>
      if db_observed_at r <=? db_observed_at row then row :: sorted
      else r :: insert_desc row rest
  end.

Definition order_by_observed_at_desc (rows : list PumpfunTrade)
  : list PumpfunTrade :=
  fold_right insert_desc [] rows.

(** The query of lines 38-53 on a table. *)
Definition select_recent (table : list PumpfunTrade) (cutoff_time : datetime)
  : list PumpfunTrade :=
  order_by_observed_at_desc
    (filter (fun r => cutoff_time <=? db_observed_at r) table).

(** Lines 78-89, one frame row per result row; [float] of a decimal. *)
Definition frame_row (row : PumpfunTrade) : Trade :=
  {| observed_at := db_observed_at row;
     mint := db_mint row;
     trader := db_trader row;
     is_buy := db_is_buy row;
     sol_amount := db_sol_amount row;
     token_amount := db_token_amount row;
     virtual_sol_reserves := Some (db_virtual_sol_reserves row);
     virtual_token_reserves := Some (db_virtual_token_reserves row) |}.

Definition fetch_recent_pumpfun_trades (now : datetime)
    (table : list PumpfunTrade) (minutes : option Z) : LazyFrame :=
  let minutes :=
    match minutes with
    | None => lookback_minutes settings
    | Some m => m
    end in
  let cutoff_time := now - timedelta_minutes minutes in
  let rows := select_recent table cutoff_time in
  match rows with
  | [] => []
  | _ :: _ => map frame_row rows
  end.

(** [SELECT DISTINCT mint ... WHERE observed_at >= :cutoff_time]; the order of
    the result is left open by SQL. *)
Definition get_unique_mints (now : datetime) (table : list PumpfunTrade)
    (minutes : option Z) : list string :=
  let minutes :=
    match minutes with
    | None => lookback_minutes settings
    | Some m => m
    end in
  let cutoff_time := now - timedelta_minutes minutes in
  nodup string_dec
    (map db_mint (filter (fun r => cutoff_time <=? db_observed_at r) table)).

End DataIngestionService.

(** ** Orchestrator (src/analysis/analyzer.py) *)

Module AlphaAnalyzer.

Import SignalConsole.

(** The list [signals] and the console, both updated in place by the loop. *)
Definition CycleState : Type := (list AlphaSignal * Console)%type.

Definition append_and_log (st : CycleState) (signal : AlphaSignal)
  : CycleState :=
  ((fst st ++ [signal])%list, log_signal signal (snd st)).

(** Lines 51-62: the loop over the mints.  [clock i] is the wall clock read by
    the volume detector for the mint at position [i].  An exception of a
    detector leaves the loop; the console keeps what was printed. *)
Fixpoint analyze_mints (clock : nat -> datetime) (trades_lf : LazyFrame)
    (mints : list string) (position : nat) (st : CycleState)
  : Console * result (list AlphaSignal) :=
  match mints with
  | [] => (snd st, Ok (fst st))
  | mint_ :: rest =>
      match outcome (VolumeMetrics.detect_volume_spike (clock position)
                       trades_lf mint_ 5 15 None) with
      | Raise e => (snd st, Raise e)
      | Ok volume_signal =>
          let st :=
            match volume_signal with
            | Some v => append_and_log st (VolumeSpike v)
            | None => st
            end in
          match outcome (WhaleMetrics.detect_whale_accumulation
                           trades_lf mint_ None None) with
          | Raise e => (snd st, Raise e)
          | Ok whale_signals =>
              analyze_mints clock trades_lf rest (S position)
                (fold_left append_and_log (map WhaleWatch whale_signals) st)
          end
      end
  end.

(** [run_analysis_cycle], given what the two reads returned. *)
Definition run_analysis_cycle (clock : nat -> datetime)
    (trades_lf : LazyFrame) (mints : list string) (console : Console)
  : Console * result (list AlphaSignal) :=
  match mints with
  | [] => (log_info "No active tokens in lookback window" console, Ok [])
  | _ :: _ =>
      let console :=
        log_info ("Analyzing " ++ str_of_nat (List.length mints)
                  ++ " active tokens...")%string console in
      match analyze_mints clock trades_lf mints 0 ([], console) with
      | (console, Raise e) => (console, Raise e)
      | (console, Ok signals) =>
          match signals with
          | _ :: _ => (log_summary (List.length signals) console, Ok signals)
          | [] =>
              (log_info "No alpha signals detected in this cycle" console,
               Ok signals)
          end
      end
  end.

(** [health_check], given the answer of [check_connection]. *)
Definition health_check (db_ok : bool) (console : Console) : Console * bool :=
  if db_ok then (log_info "System health check passed" console, true)
  else (log_error "Database connection failed" console, false).

End AlphaAnalyzer.

(** ** Runner (main.py) *)

Module QuantInsightRunner.

Import SignalConsole.

(** What one call of the cycle meets: a failing read (an exception with its
    text), or the frame and the mints that were read. *)
Inductive CycleInput : Type :=
| ReadFailed (error : string)
| ReadOk (clock : nat -> datetime) (trades_lf : LazyFrame)
         (mints : list string).

(** One turn of the loop: the cycle, then the wait during which the signals
    [delivered] (their numbers) reach the handler. *)
Record Turn : Type := {
  cycle_input : CycleInput;
  delivered : list nat
}.

(** How [run] ends: [sys.exit(code)], an exception of a call on the console,
    the end of the loop, or still in the loop after the turns supplied by
    the environment. *)
Inductive RunOutcome : Type :=
| SystemExit (code : Z)
| Raised (error : CallError)
| Returned
| Running.

(** [_handle_shutdown]: logs, then sets the shutdown event. *)
Definition handle_shutdown (c : Console) (signum : nat) : Console :=
  log_info ("Received signal " ++ str_of_nat signum
            ++ ", initiating shutdown...")%string c.

Section Run.

(** [str(e)] for an exception of a detector, and [__version__]. *)
Variable str_exn : exn -> string.
Variable version : string.

(** Lines 66-69: one cycle under [try ... except Exception]. *)
Definition guarded_cycle (input : CycleInput) (c : Console) : Console :=
  match input with
  | ReadFailed error =>
      log_error ("Analysis cycle failed: " ++ error)%string c
  | ReadOk clock trades_lf mints =>
      match AlphaAnalyzer.run_analysis_cycle clock trades_lf mints c with
      | (c, Ok _) => c
      | (c, Raise e) =>
          log_error ("Analysis cycle failed: " ++ str_exn e)%string c
      end
  end.

(** Lines 61-82: the loop and its [finally].  [shutdown_set] is the state of
    the shutdown event at the test of the [while]; the turns are those the
    environment has supplied so far. *)
Fixpoint run_loop (turns : list Turn) (shutdown_set : bool)
    (cycle_count : nat) (c : Console) : Console * RunOutcome :=
  if shutdown_set then (log_shutdown c, Returned)
  else
    match turns with
    | [] => (c, Running)
    | turn :: rest =>
        let cycle_count := S cycle_count in
        let c :=
          log_info
            ("Starting analysis cycle #" ++ str_of_nat cycle_count)%string
            c in
        let c := guarded_cycle (cycle_input turn) c in
        let c := fold_left handle_shutdown (delivered turn) c in
        run_loop rest
          (match delivered turn with [] => false | _ :: _ => true end)
          cycle_count c
    end.

(** [run]: start-up, health check, then the loop.  [early] are the signals
    delivered while the health check waits for the database.  Line 58 calls
    [print] on the [SignalConsole]; an exception of that call is raised
    outside the [try] of the loop and ends [run]. *)
Definition run (db_ok : bool) (early : list nat) (turns : list Turn)
    (c : Console) : Console * RunOutcome :=
  let c := log_startup version (analysis_interval_seconds settings) c in
  let c := log_info "Running system health check..." c in
  let c := fold_left handle_shutdown early c in
  let (c, healthy) := AlphaAnalyzer.health_check db_ok c in
  if negb healthy then
    (log_error "Health check failed, exiting" c, SystemExit 1)
  else
    let c := log_success "System ready, starting analysis loop" c in
    match call_without_arguments "print" c with
    | (c, Some error) => (c, Raised error)
    | (c, None) =>
        run_loop turns
          (match early with [] => false | _ :: _ => true end) 0 c
    end.

End Run.

End QuantInsightRunner.

(** ** Vocabulary for the orchestrator, the ingestion and the runner *)

Module CycleSpec.

Import SignalConsole.

(** What the two detectors yield for one mint, volume signal first. *)
Definition mint_signals (now : datetime) (trades_lf : LazyFrame)
    (mint_ : string) : list AlphaSignal :=
  (match outcome (VolumeMetrics.detect_volume_spike now trades_lf mint_
                    5 15 None) with
   | Ok (Some v) => [VolumeSpike v]
   | _ => []
   end
   ++ match outcome (WhaleMetrics.detect_whale_accumulation trades_lf mint_
                       None None) with
      | Ok whale_signals => map WhaleWatch whale_signals
      | Raise _ => []
      end)%list.

(** The signals of the mints from position [position] on, mint by mint. *)
Fixpoint cycle_signals (clock : nat -> datetime) (trades_lf : LazyFrame)
    (mints : list string) (position : nat) : list AlphaSignal :=
  match mints with
  | [] => []
  | mint_ :: rest =>
      (mint_signals (clock position) trades_lf mint_
       ++ cycle_signals clock trades_lf rest (S position))%list
  end.

(** The signals shown in panels, in printing order. *)
Definition panel_signals (items : list Printed) : list AlphaSignal :=
  flat_map (fun item => match item with
                        | Panel _ signal => [signal]
                        | _ => []
                        end) items.

(** The lines that open a cycle in the runner. *)
Definition is_cycle_start (item : Printed) : bool :=
  match item with
  | Info message => String.prefix "Starting analysis cycle #" message
  | _ => false
  end.

Definition cycles_started (c : Console) : nat :=
  List.length (filter is_cycle_start (printed c)).

(** The turns the loop goes through: up to and including the first one during
    which a signal is delivered. *)
Fixpoint turns_run (turns : list QuantInsightRunner.Turn)
  : list QuantInsightRunner.Turn :=
  match turns with
  | [] => []
  | turn :: rest =>
      match QuantInsightRunner.delivered turn with
      | [] => turn :: turns_run rest
      | _ :: _ => [turn]
      end
  end.

Definition shutdown_requested (turns : list QuantInsightRunner.Turn) : bool :=
  existsb (fun turn => match QuantInsightRunner.delivered turn with
                       | [] => false
                       | _ :: _ => true
                       end) turns.

(** The number of signals the cycle of a turn returns. *)
Definition turn_signal_count (turn : QuantInsightRunner.Turn) : nat :=
  match QuantInsightRunner.cycle_input turn with
  | QuantInsightRunner.ReadFailed _ => 0
  | QuantInsightRunner.ReadOk clock trades_lf mints =>
      List.length (cycle_signals clock trades_lf mints 0)
  end.

End CycleSpec.

Module MoreScenarios.

Import DataIngestionService QuantInsightRunner.

(** Scenario D: buys in the baseline window only. *)
Definition baseline_only : LazyFrame :=
  [ Scenarios.buy (5 * Scenarios.minute) "alice" 100 (Some 30%Q)
      (Some 1000000%Q) ].

Definition row (at_ : datetime) (mint_ trader_ : string) (buy_ : bool)
    (sol : Q) : PumpfunTrade :=
  {| db_observed_at := at_; db_slot := 1; db_tx_signature := "sig";
     db_mint := mint_; db_trader := trader_; db_is_buy := buy_;
     db_sol_amount := sol; db_token_amount := (sol * 1000)%Q;
     db_virtual_sol_reserves := 30%Q;
     db_virtual_token_reserves := 1000000%Q |}.

(** A table in insertion order; its first row is older than the lookback of
    twenty minutes at [table_now]. *)
Definition table : list PumpfunTrade :=
  [ row (1 * Scenarios.minute) "OLD" "dave" true 5;
    row (12 * Scenarios.minute) "MINT" "alice" true 100;
    row (27 * Scenarios.minute) "MINT" "bob" true 200;
    row (27 * Scenarios.minute) "MINT" "carol" false 50;
    row (28 * Scenarios.minute) "MINT" "alice" true 300 ].

Definition table_now : datetime := 30 * Scenarios.minute.

Definition fixed_clock (i : nat) : datetime := Scenarios.now.

(** Three turns: a cycle on Scenario C, a failing read, and a cycle during
    whose wait SIGTERM (15) arrives; a fourth turn that is never reached. *)
Definition turns : list Turn :=
  [ {| cycle_input := ReadOk fixed_clock Scenarios.scenario_c ["MINT"%string];
       delivered := [] |};
    {| cycle_input := ReadFailed "connection refused"; delivered := [] |};
    {| cycle_input := ReadOk fixed_clock Scenarios.scenario_a ["MINT"%string];
       delivered := [15%nat] |};
    {| cycle_input := ReadFailed "never read"; delivered := [] |} ].

End MoreScenarios.

(** * Properties *)

Import VolumeMetrics WhaleMetrics Spec.

(** ** Rational comparisons *)

Local Open Scope Q_scope.

Lemma Qlt_bool_iff (x y : Q) : Qlt_bool x y = true <-> x < y.
Proof.
  unfold Qlt_bool. rewrite negb_true_iff. split.
  - intros H. apply Qnot_le_lt. intros Hle.
    apply Qle_bool_iff in Hle. congruence.
  - intros H. destruct (Qle_bool y x) eqn:E; [|reflexivity].
    apply Qle_bool_iff in E. lra.
Qed.

Lemma Qle_bool_false (x y : Q) : Qle_bool x y = false <-> y < x.
Proof.
  rewrite <- Qlt_bool_iff. unfold Qlt_bool.
  destruct (Qle_bool x y); simpl; split; congruence.
Qed.

Lemma Qeq_bool_false (x y : Q) : Qeq_bool x y = false <-> ~ x == y.
Proof.
  split; [apply Qeq_bool_neq|].
  intros H. destruct (Qeq_bool x y) eqn:E; [|reflexivity].
  apply Qeq_bool_iff in E. contradiction.
Qed.

(** Turns the boolean comparisons among the hypotheses into inequalities. *)
Ltac reflect_Qle :=
  repeat match goal with
         | H : Qle_bool _ _ = true |- _ => apply Qle_bool_iff in H
         | H : Qle_bool _ _ = false |- _ => apply Qle_bool_false in H
         end.

Lemma or_float_zero (x : Q) : or_float x 0 == x.
Proof.
  unfold or_float. destruct (Qeq_bool x 0) eqn:E.
  - apply Qeq_bool_iff in E. symmetry. exact E.
  - reflexivity.
Qed.

Lemma col_sum_nonneg (xs : list Q) :
  Forall (fun x => 0 <= x) xs -> 0 <= Polars.col_sum xs.
Proof.
  unfold Polars.col_sum.
  induction 1 as [|x rest Hx _ IH]; simpl; lra.
Qed.

(** ** Volume spike detector: the decision *)

Lemma compute_spike_zero_baseline_active (rv bv : Q) :
  bv == 0 -> 0 < rv -> compute_spike_percentage rv bv = ret (Some PInf).
Proof.
  intros Hb Hr. unfold compute_spike_percentage.
  apply Qeq_bool_iff in Hb. apply Qlt_bool_iff in Hr.
  rewrite Hb, Hr. reflexivity.
Qed.

Lemma compute_spike_zero_baseline_idle (rv bv : Q) :
  bv == 0 -> ~ 0 < rv -> compute_spike_percentage rv bv = ret None.
Proof.
  intros Hb Hr. unfold compute_spike_percentage.
  apply Qeq_bool_iff in Hb. rewrite Hb.
  destruct (Qlt_bool 0 rv) eqn:E; [|reflexivity].
  apply Qlt_bool_iff in E. contradiction.
Qed.

Lemma compute_spike_positive_baseline (rv bv : Q) :
  ~ bv == 0 ->
  compute_spike_percentage rv bv
  = mkPy 1 (Ok (Some (Fin ((rv - bv) / bv * 100)))).
Proof.
  intros Hb. unfold compute_spike_percentage, truediv.
  apply Qeq_bool_false in Hb. rewrite Hb. reflexivity.
Qed.

Lemma spike_signal_of_spike (mint_ : string) (th rv : Q) (rc : nat) (bv : Q)
    (bc : nat) (n : nat) (spike : pyfloat) :
  compute_spike_percentage rv bv = mkPy n (Ok (Some spike)) ->
  spike_signal mint_ th rv rc bv bc
  = mkPy n (Ok (if float_ge spike th
                then Some (fired mint_ rv rc bv bc spike) else None)).
Proof.
  intros H. unfold spike_signal, bind. rewrite H. simpl.
  destruct (float_ge spike th); simpl; rewrite Nat.add_0_r; reflexivity.
Qed.

Lemma spike_signal_no_spike (mint_ : string) (th rv : Q) (rc : nat) (bv : Q)
    (bc : nat) :
  compute_spike_percentage rv bv = ret None ->
  spike_signal mint_ th rv rc bv bc = ret None.
Proof.
  intros H. unfold spike_signal, bind. rewrite H. reflexivity.
Qed.

Lemma spike_severity_mono (p q : Q) :
  p <= q ->
  severity_le (spike_severity (Fin p)) (spike_severity (Fin q)).
Proof.
  intros Hpq. unfold severity_le, spike_severity, float_ge.
  destruct (Qle_bool 1000 p) eqn:P1, (Qle_bool 1000 q) eqn:Q1;
  destruct (Qle_bool 500 p) eqn:P2, (Qle_bool 500 q) eqn:Q2;
  destruct (Qle_bool 300 p) eqn:P3, (Qle_bool 300 q) eqn:Q3;
  simpl; try lia; reflect_Qle; exfalso; lra.
Qed.

Lemma spike_severity_proper (p q : Q) :
  p == q -> spike_severity (Fin p) = spike_severity (Fin q).
Proof.
  intros H. unfold spike_severity, float_ge.
  rewrite (Qleb_comp 1000 1000 (Qeq_refl _) p q H).
  rewrite (Qleb_comp 500 500 (Qeq_refl _) p q H).
  rewrite (Qleb_comp 300 300 (Qeq_refl _) p q H).
  reflexivity.
Qed.

Lemma doubling_raises_spike (rv bv rv' bv' : Q) :
  0 <= rv -> 0 < bv -> bv' == bv -> rv' == 2 * rv ->
  (rv - bv) / bv * 100 <= (rv' - bv') / bv' * 100.
Proof.
  intros Hr Hb Hbv Hrv. rewrite Hbv, Hrv.
  apply Qmult_le_compat_r; [|lra].
  unfold Qdiv. apply Qmult_le_compat_r; [lra|].
  apply Qlt_le_weak, Qinv_lt_0_compat. exact Hb.
Qed.

(** ** Volume spike detector on a batch *)

Lemma detect_volume_spike_unfold (now : datetime) (lf : LazyFrame)
    (mint_ : string) (rm bm : Z) (th : option Q) :
  detect_volume_spike now lf mint_ rm bm th
  = spike_signal mint_ (volume_threshold_of th)
      (recent_volume now lf mint_ rm)
      (or_count (window_count (buy_stats (recent_trades now lf mint_ rm))) 0)
      (baseline_volume now lf mint_ rm bm)
      (or_count
         (window_count (buy_stats (baseline_trades now lf mint_ rm bm))) 0).
Proof. destruct th; reflexivity. Qed.

Lemma volume_nonneg_of_well_formed (rows : list Trade) :
  well_formed rows -> 0 <= or_float (volume_sol (buy_stats rows)) 0.
Proof.
  intros Hwf. rewrite or_float_zero. simpl.
  apply col_sum_nonneg. apply Forall_map.
  apply Forall_forall. intros r Hr. apply filter_In in Hr.
  unfold well_formed in Hwf. rewrite Forall_forall in Hwf.
  apply (Hwf r). apply Hr.
Qed.

Lemma well_formed_filter (p : Trade -> bool) (rows : list Trade) :
  well_formed rows -> well_formed (filter p rows).
Proof.
  unfold well_formed. rewrite !Forall_forall. intros H r Hr.
  apply filter_In in Hr. apply H, Hr.
Qed.

Lemma recent_volume_nonneg (now : datetime) (lf : LazyFrame) (mint_ : string)
    (rm : Z) :
  well_formed lf -> 0 <= recent_volume now lf mint_ rm.
Proof.
  intros Hwf. apply volume_nonneg_of_well_formed.
  unfold recent_trades. now repeat apply well_formed_filter.
Qed.

(** The volume detector never raises: the division is guarded. *)
Lemma detect_volume_spike_returns (now : datetime) (lf : LazyFrame)
    (mint_ : string) (rm bm : Z) (th : option Q) :
  exists r, outcome (detect_volume_spike now lf mint_ rm bm th) = Ok r.
Proof.
  rewrite detect_volume_spike_unfold.
  set (rv := recent_volume now lf mint_ rm).
  set (bv := baseline_volume now lf mint_ rm bm).
  destruct (Qeq_dec bv 0) as [Hz|Hz].
  - destruct (Qlt_le_dec 0 rv) as [Hlt|Hle].
    + rewrite (spike_signal_of_spike _ _ _ _ _ _ _ _
                 (compute_spike_zero_baseline_active rv bv Hz Hlt)).
      eexists. reflexivity.
    + rewrite spike_signal_no_spike; [eexists; reflexivity|].
      apply compute_spike_zero_baseline_idle; [exact Hz|lra].
  - rewrite (spike_signal_of_spike _ _ _ _ _ _ _ _
               (compute_spike_positive_baseline rv bv Hz)).
    eexists. reflexivity.
Qed.

(** C1. Whenever the computed recent and baseline volumes are non-negative
    and not both zero, a spike percentage is computed, and
    [detect_volume_spike] returns a signal (carrying that percentage) if and
    only if the percentage is at least the threshold; otherwise it returns
    none. *)
Theorem volume_signal_iff_trigger (now : datetime) (lf : LazyFrame)
    (mint_ : string) (rm bm : Z) (th : option Q) :
  0 <= recent_volume now lf mint_ rm ->
  0 <= baseline_volume now lf mint_ rm bm ->
  ~ (recent_volume now lf mint_ rm == 0
     /\ baseline_volume now lf mint_ rm bm == 0) ->
  exists spike : pyfloat,
    outcome (compute_spike_percentage (recent_volume now lf mint_ rm)
                                      (baseline_volume now lf mint_ rm bm))
    = Ok (Some spike)
    /\ ((exists signal,
           outcome (detect_volume_spike now lf mint_ rm bm th)
           = Ok (Some signal))
        <-> float_ge spike (volume_threshold_of th) = true)
    /\ (forall signal,
           outcome (detect_volume_spike now lf mint_ rm bm th)
           = Ok (Some signal) ->
           spike_percentage signal = spike)
    /\ (float_ge spike (volume_threshold_of th) = false ->
        outcome (detect_volume_spike now lf mint_ rm bm th) = Ok None).
Proof.
  intros Hr Hb Hnz. rewrite detect_volume_spike_unfold.
  set (rv := recent_volume now lf mint_ rm) in *.
  set (bv := baseline_volume now lf mint_ rm bm) in *.
  set (rc := or_count _ _). set (bc := or_count _ _).
  assert (Hcases :
    exists n spike, compute_spike_percentage rv bv = mkPy n (Ok (Some spike))).
  { destruct (Qeq_dec bv 0) as [Hz|Hz].
    - exists 0%nat, PInf. apply compute_spike_zero_baseline_active; [exact Hz|].
      destruct (Qeq_dec rv 0) as [Hrz|Hrz]; [tauto|].
      destruct (Qlt_le_dec 0 rv) as [Hlt|Hle]; [exact Hlt|].
      exfalso. apply Hrz. lra.
    - eexists 1%nat, _. apply compute_spike_positive_baseline. exact Hz. }
  destruct Hcases as (n & spike & Hspike). exists spike.
  rewrite (spike_signal_of_spike mint_ _ rv rc bv bc n spike Hspike).
  rewrite Hspike. simpl.
  destruct (float_ge spike (volume_threshold_of th)); repeat split.
  - intros _. eexists. reflexivity.
  - intros signal Hs. injection Hs as <-. reflexivity.
  - discriminate.
  - intros (signal & Hs). discriminate.
  - discriminate.
  - intros signal Hs. discriminate.
Qed.

Lemma volume_signal_iff_trigger_witness :
  exists spike : pyfloat,
    outcome (compute_spike_percentage
               (recent_volume Scenarios.now Scenarios.scenario_a "MINT" 5)
               (baseline_volume Scenarios.now Scenarios.scenario_a "MINT" 5 15))
    = Ok (Some spike)
    /\ ((exists signal,
           outcome (detect_volume_spike Scenarios.now Scenarios.scenario_a
                      "MINT" 5 15 None)
           = Ok (Some signal))
        <-> float_ge spike (volume_threshold_of None) = true)
    /\ (forall signal,
           outcome (detect_volume_spike Scenarios.now Scenarios.scenario_a
                      "MINT" 5 15 None)
           = Ok (Some signal) ->
           spike_percentage signal = spike)
    /\ (float_ge spike (volume_threshold_of None) = false ->
        outcome (detect_volume_spike Scenarios.now Scenarios.scenario_a
                   "MINT" 5 15 None) = Ok None).
Proof.
  apply (volume_signal_iff_trigger Scenarios.now Scenarios.scenario_a
           "MINT" 5 15 None).
  - vm_compute. discriminate.
  - vm_compute. discriminate.
  - intros [H _]. vm_compute in H. discriminate.
Defined.



(** C6, as the specification states it, fails on Scenario A: the baseline buy
    volume is 100 and the recent one 500, yet a signal is emitted for the
    threshold 350, so emission is not equivalent to a threshold of at most
    300; the percentage carried by the signal is 400, not 300. *)
Lemma scenario_a_emits_above_300 :
  recent_volume Scenarios.now Scenarios.scenario_a "MINT" 5 == 500
  /\ baseline_volume Scenarios.now Scenarios.scenario_a "MINT" 5 15 == 100
  /\ ~ (forall th : Q,
          (exists signal,
             outcome (detect_volume_spike Scenarios.now Scenarios.scenario_a
                        "MINT" 5 15 (Some th)) = Ok (Some signal))
          <-> th <= 300)
  /\ (exists signal q,
        outcome (detect_volume_spike Scenarios.now Scenarios.scenario_a
                   "MINT" 5 15 (Some 350)) = Ok (Some signal)
        /\ spike_percentage signal = Fin q
        /\ q == 400 /\ ~ q == 300).
Proof.
  split; [vm_compute; reflexivity|].
  split; [vm_compute; reflexivity|].
  split.
  - intros H. destruct (H 350) as [Hemit _].
    assert (Hle : 350 <= 300).
    { apply Hemit. eexists. vm_compute. reflexivity. }
    vm_compute in Hle. apply Hle. reflexivity.
  - eexists. eexists. split; [vm_compute; reflexivity|].
    split; [reflexivity|].
    split; vm_compute; [reflexivity|discriminate].
Qed.

(** C6, amended.  For a batch whose baseline buy volume is 100 and whose
    recent buy volume is 500, the computed spike percentage is 400; a signal
    is emitted if and only if the threshold is at most 400, and its severity
    is MEDIUM. *)
Theorem scenario_a_spike_is_400 (now : datetime) (lf : LazyFrame)
    (mint_ : string) (rm bm : Z) (th : option Q) :
  recent_volume now lf mint_ rm == 500 ->
  baseline_volume now lf mint_ rm bm == 100 ->
  (exists q,
     outcome (compute_spike_percentage (recent_volume now lf mint_ rm)
                                       (baseline_volume now lf mint_ rm bm))
     = Ok (Some (Fin q))
     /\ q == 400)
  /\ ((exists signal,
         outcome (detect_volume_spike now lf mint_ rm bm th)
         = Ok (Some signal))
      <-> volume_threshold_of th <= 400)
  /\ (forall signal,
         outcome (detect_volume_spike now lf mint_ rm bm th)
         = Ok (Some signal) ->
         vs_severity signal = MEDIUM).
Proof.
  intros Hr Hb. rewrite detect_volume_spike_unfold.
  set (rv := recent_volume now lf mint_ rm) in *.
  set (bv := baseline_volume now lf mint_ rm bm) in *.
  assert (Hnz : ~ bv == 0) by (rewrite Hb; discriminate).
  assert (Hq : (rv - bv) / bv * 100 == 400).
  { rewrite Hr, Hb. reflexivity. }
  rewrite (spike_signal_of_spike _ _ _ _ _ _ _ _
             (compute_spike_positive_baseline rv bv Hnz)).
  rewrite (compute_spike_positive_baseline rv bv Hnz). simpl.
  split; [eexists; split; [reflexivity|exact Hq]|].
  destruct (Qle_bool (volume_threshold_of th) ((rv - bv) / bv * 100)) eqn:E.
  - apply Qle_bool_iff in E. rewrite Hq in E. split.
    + split; [intros _; exact E|intros _; eexists; reflexivity].
    + intros signal Hs. injection Hs as <-. simpl.
      rewrite (spike_severity_proper _ _ Hq). reflexivity.
  - apply Qle_bool_false in E. rewrite Hq in E. split.
    + split; [intros (s & Hs); discriminate|intros Hle; lra].
    + intros signal Hs. discriminate.
Qed.

Lemma scenario_a_spike_is_400_witness :
  (exists q,
     outcome (compute_spike_percentage
                (recent_volume Scenarios.now Scenarios.scenario_a "MINT" 5)
                (baseline_volume Scenarios.now Scenarios.scenario_a "MINT" 5 15))
     = Ok (Some (Fin q))
     /\ q == 400)
  /\ ((exists signal,
         outcome (detect_volume_spike Scenarios.now Scenarios.scenario_a
                    "MINT" 5 15 (Some 400))
         = Ok (Some signal))
      <-> volume_threshold_of (Some 400) <= 400)
  /\ (forall signal,
         outcome (detect_volume_spike Scenarios.now Scenarios.scenario_a
                    "MINT" 5 15 (Some 400))
         = Ok (Some signal) ->
         vs_severity signal = MEDIUM).
Proof.
  apply (scenario_a_spike_is_400 Scenarios.now Scenarios.scenario_a
           "MINT" 5 15 (Some 400)).
  - vm_compute. reflexivity.
  - vm_compute. reflexivity.
Defined.

(** C9. On batches with non-negative amounts and a positive baseline volume,
    doubling the recent volume while keeping the baseline volume never
    lowers the severity: if the detector returns a signal, it still returns
    one after doubling, of the same or a higher severity. *)
Theorem doubling_never_lowers_severity (now : datetime)
    (lf lf' : LazyFrame) (mint_ : string) (rm bm : Z) (th : option Q)
    (signal : VolumeSignal) :
  well_formed lf ->
  0 < baseline_volume now lf mint_ rm bm ->
  baseline_volume now lf' mint_ rm bm == baseline_volume now lf mint_ rm bm ->
  recent_volume now lf' mint_ rm == 2 * recent_volume now lf mint_ rm ->
  outcome (detect_volume_spike now lf mint_ rm bm th) = Ok (Some signal) ->
  exists signal',
    outcome (detect_volume_spike now lf' mint_ rm bm th) = Ok (Some signal')
    /\ severity_le (vs_severity signal) (vs_severity signal').
Proof.
  intros Hwf Hb Hbv Hrv. rewrite !detect_volume_spike_unfold.
  pose proof (recent_volume_nonneg now lf mint_ rm Hwf) as Hr.
  set (rv := recent_volume now lf mint_ rm) in *.
  set (bv := baseline_volume now lf mint_ rm bm) in *.
  set (rv' := recent_volume now lf' mint_ rm) in *.
  set (bv' := baseline_volume now lf' mint_ rm bm) in *.
  assert (Hnz : ~ bv == 0) by lra.
  assert (Hnz' : ~ bv' == 0) by lra.
  pose proof (doubling_raises_spike rv bv rv' bv' Hr Hb Hbv Hrv) as Hle.
  rewrite (spike_signal_of_spike _ _ _ _ _ _ _ _
             (compute_spike_positive_baseline rv bv Hnz)).
  rewrite (spike_signal_of_spike _ _ _ _ _ _ _ _
             (compute_spike_positive_baseline rv' bv' Hnz')).
  simpl.
  destruct (Qle_bool (volume_threshold_of th) ((rv - bv) / bv * 100)) eqn:E;
    [|discriminate].
  intros Hs. injection Hs as <-.
  apply Qle_bool_iff in E.
  assert (E' : Qle_bool (volume_threshold_of th) ((rv' - bv') / bv' * 100)
               = true).
  { apply Qle_bool_iff. lra. }
  rewrite E'. eexists. split; [reflexivity|].
  simpl. apply spike_severity_mono. exact Hle.
Qed.

Lemma doubling_never_lowers_severity_witness :
  exists signal',
    outcome (detect_volume_spike Scenarios.now Scenarios.scenario_a_doubled
               "MINT" 5 15 None) = Ok (Some signal')
    /\ severity_le
         (vs_severity
            (fired "MINT" 500 2 100 1 (Fin ((500 - 100) / 100 * 100))))
         (vs_severity signal').
Proof.
  apply (doubling_never_lowers_severity Scenarios.now Scenarios.scenario_a
           Scenarios.scenario_a_doubled "MINT" 5 15 None).
  - repeat constructor; vm_compute; discriminate.
  - vm_compute. reflexivity.
  - vm_compute. reflexivity.
  - vm_compute. reflexivity.
  - vm_compute. reflexivity.
Defined.

(** ** Frames *)

Local Open Scope Z_scope.

Lemma filter_filter_and {A : Type} (p q : A -> bool) (l : list A) :
  filter p (filter q l) = filter (fun x => q x && p x) l.
Proof.
  induction l as [|x l IH]; simpl; [reflexivity|].
  destruct (q x); simpl; [destruct (p x)|]; rewrite IH; reflexivity.
Qed.

Lemma filter_nil_of_length {A : Type} (l : list A) :
  Nat.eqb (Polars.height l) 0 = true -> l = [].
Proof. destruct l; simpl; [reflexivity|discriminate]. Qed.

Lemma fold_min_spec (x : Z) (rest : list Z) :
  In (fold_right Z.min x rest) (x :: rest)
  /\ Forall (fun y => fold_right Z.min x rest <= y) (x :: rest).
Proof.
  induction rest as [|y rest [IHin IHall]]; simpl.
  - split; [left; reflexivity|]. constructor; [lia|constructor].
  - set (m := fold_right Z.min x rest) in *.
    inversion IHall as [|? ? Hx Hrest]; subst. split.
    + destruct (Z.min_spec y m) as [[_ ->]|[_ ->]].
      * right; left; reflexivity.
      * destruct IHin as [<-|Hin]; [left; reflexivity|right; right; exact Hin].
    + constructor; [lia|]. constructor; [lia|].
      eapply Forall_impl; [|exact Hrest]. simpl. intros; lia.
Qed.

Lemma fold_max_spec (x : Z) (rest : list Z) :
  In (fold_right Z.max x rest) (x :: rest)
  /\ Forall (fun y => y <= fold_right Z.max x rest) (x :: rest).
Proof.
  induction rest as [|y rest [IHin IHall]]; simpl.
  - split; [left; reflexivity|]. constructor; [lia|constructor].
  - set (m := fold_right Z.max x rest) in *.
    inversion IHall as [|? ? Hx Hrest]; subst. split.
    + destruct (Z.max_spec y m) as [[_ ->]|[_ ->]].
      * destruct IHin as [<-|Hin]; [left; reflexivity|right; right; exact Hin].
      * right; left; reflexivity.
    + constructor; [lia|]. constructor; [lia|].
      eapply Forall_impl; [|exact Hrest]. simpl. intros; lia.
Qed.

Lemma col_min_spec (xs : list Z) (m : Z) :
  Polars.col_min xs = Some m <-> In m xs /\ Forall (fun y => m <= y) xs.
Proof.
  destruct xs as [|x rest]; simpl.
  - split; [discriminate|intros [[] _]].
  - split.
    + intros H. injection H as <-. apply fold_min_spec.
    + intros [Hin Hall]. f_equal.
      destruct (fold_min_spec x rest) as [Hin' Hall'].
      rewrite Forall_forall in Hall, Hall'.
      pose proof (Hall _ Hin'). pose proof (Hall' _ Hin). simpl in *. lia.
Qed.

Lemma col_max_spec (xs : list Z) (m : Z) :
  Polars.col_max xs = Some m <-> In m xs /\ Forall (fun y => y <= m) xs.
Proof.
  destruct xs as [|x rest]; simpl.
  - split; [discriminate|intros [[] _]].
  - split.
    + intros H. injection H as <-. apply fold_max_spec.
    + intros [Hin Hall]. f_equal.
      destruct (fold_max_spec x rest) as [Hin' Hall'].
      rewrite Forall_forall in Hall, Hall'.
      pose proof (Hall _ Hin'). pose proof (Hall' _ Hin). simpl in *. lia.
Qed.

Lemma col_min_max_nonempty (xs : list Z) :
  xs <> [] ->
  exists lo hi,
    Polars.col_min xs = Some lo /\ Polars.col_max xs = Some hi /\ lo <= hi.
Proof.
  destruct xs as [|x rest]; [congruence|]. intros _.
  exists (fold_right Z.min x rest), (fold_right Z.max x rest).
  split; [reflexivity|]. split; [reflexivity|].
  destruct (fold_min_spec x rest) as [_ Hmin].
  destruct (fold_max_spec x rest) as [_ Hmax].
  inversion Hmin; inversion Hmax; subst. lia.
Qed.

(** ** Groups and candidates *)

Lemma group_by_keys (key : Trade -> string) (rows : list Trade) :
  map fst (Polars.group_by key rows) = nodup string_dec (map key rows).
Proof.
  unfold Polars.group_by. rewrite map_map. simpl. apply map_id.
Qed.

Lemma group_by_In (key : Trade -> string) (rows : list Trade)
    (g : string * list Trade) :
  In g (Polars.group_by key rows) <->
  In (fst g) (map key rows)
  /\ snd g = filter (fun r => String.eqb (key r) (fst g)) rows.
Proof.
  unfold Polars.group_by. rewrite in_map_iff. split.
  - intros (k & <- & Hk). simpl. apply nodup_In in Hk. tauto.
  - intros [Hk Hrows]. exists (fst g). split.
    + destruct g; simpl in *. congruence.
    + apply nodup_In. exact Hk.
Qed.

Lemma group_nonempty (key : Trade -> string) (rows : list Trade) (k : string) :
  In k (map key rows) ->
  filter (fun r => String.eqb (key r) k) rows <> [].
Proof.
  intros Hk. apply in_map_iff in Hk. destruct Hk as (r & Hr & Hin).
  intros Hnil.
  assert (Hf : In r (filter (fun r => String.eqb (key r) k) rows)).
  { apply filter_In. split; [exact Hin|]. rewrite Hr. apply String.eqb_refl. }
  rewrite Hnil in Hf. exact Hf.
Qed.

Lemma whale_candidates_In (early : list Trade) (th : Q) (c : Candidate) :
  In c (whale_candidates early th) <->
  In (cand_trader c) (map trader (filter is_buy early))
  /\ c = aggregate
           (cand_trader c,
            filter (fun r => String.eqb (trader r) (cand_trader c))
                   (filter is_buy early))
  /\ Qle_bool th (total_sol c) = true.
Proof.
  unfold whale_candidates. rewrite filter_In, in_map_iff. split.
  - intros [(g & <- & Hg) Hth]. apply group_by_In in Hg.
    destruct Hg as [Hk Hrows]. destruct g as [k rows]; simpl in *.
    subst rows. auto.
  - intros (Hk & Hc & Hth). split; [|exact Hth].
    eexists. split; [symmetry; exact Hc|].
    apply group_by_In. simpl. auto.
Qed.

Lemma whale_candidates_nil (th : Q) : whale_candidates [] th = [].
Proof. reflexivity. Qed.

Lemma for_each_Forall2 {A B : Type} (f : A -> py B) (rows : list A) :
  Forall (fun row => exists s, f row = ret s) rows ->
  exists ss,
    for_each f rows = ret ss /\ Forall2 (fun row s => f row = ret s) rows ss.
Proof.
  induction 1 as [|row rest [s Hs] _ [ss [Hss Hall]]]; simpl.
  - exists []. split; [reflexivity|constructor].
  - exists (s :: ss). rewrite Hs, Hss. split; [reflexivity|].
    constructor; assumption.
Qed.

Lemma candidate_bounds (early : list Trade) (th : Q) (c : Candidate) :
  In c (whale_candidates early th) ->
  exists lo hi,
    first_trade c = Some lo /\ last_trade c = Some hi /\ lo <= hi
    /\ (1 <= cand_trade_count c)%nat.
Proof.
  intros Hc. apply whale_candidates_In in Hc.
  destruct Hc as (Hk & Hc & _).
  pose proof (group_nonempty trader _ _ Hk) as Hne.
  set (rows := filter _ (filter is_buy early)) in *.
  destruct (col_min_max_nonempty (map observed_at rows)) as (lo & hi & H).
  { destruct rows; [congruence|discriminate]. }
  exists lo, hi. rewrite Hc. simpl.
  destruct H as (Hlo & Hhi & Hle). repeat split; try assumption.
  unfold Polars.height. destruct rows; [congruence|simpl; lia].
Qed.

Lemma make_signal_total (mint_ : string) (early : list Trade) (th : Q)
    (c : Candidate) :
  In c (whale_candidates early th) -> exists s, make_signal mint_ c = ret s.
Proof.
  intros Hc. destruct (candidate_bounds _ _ _ Hc) as (lo & hi & Hlo & Hhi & _).
  unfold make_signal. rewrite Hlo, Hhi. eexists. reflexivity.
Qed.

(** The detector never raises: it returns one signal per candidate row, in
    the order of the rows. *)
Lemma detect_whale_spec (lf : LazyFrame) (mint_ : string)
    (fm : option Z) (th : option Q) :
  exists signals,
    detect_whale_accumulation lf mint_ fm th = ret signals
    /\ Forall2 (fun c s => make_signal mint_ c = ret s)
         (whale_candidates (early_trades lf mint_ fm) (threshold_of th))
         signals.
Proof.
  unfold detect_whale_accumulation, early_trades, launch_time.
  set (mint_trades := filter (fun r => String.eqb (mint r) mint_) lf).
  destruct (Nat.eqb (Polars.height mint_trades) 0) eqn:E.
  - apply filter_nil_of_length in E. rewrite E. simpl.
    exists []. split; [reflexivity|constructor].
  - destruct (Polars.col_min (map observed_at mint_trades)) as [launch|] eqn:M.
    + unfold mint_trades. rewrite filter_filter_and.
      fold (first_window fm). fold (threshold_of th).
      set (early := filter _ lf).
      destruct (Nat.eqb (Polars.height early) 0) eqn:E2.
      * apply filter_nil_of_length in E2. rewrite E2.
        exists []. split; [reflexivity|constructor].
      * apply for_each_Forall2. apply Forall_forall. intros c Hc.
        eapply make_signal_total. exact Hc.
    + exists []. split; [reflexivity|constructor].
Qed.

Lemma make_signal_fields (mint_ : string) (c : Candidate) (s : WhaleSignal) :
  make_signal mint_ c = ret s ->
  trader_address s = cand_trader c
  /\ total_sol_accumulated s = total_sol c
  /\ total_tokens_accumulated s = total_tokens c
  /\ trade_count s = cand_trade_count c
  /\ first_trade c = Some (first_trade_at s)
  /\ last_trade c = Some (last_trade_at s)
  /\ estimated_market_cap_sol s = market_cap c
  /\ ws_severity s = whale_severity (total_sol c)
  /\ ws_mint s = mint_.
Proof.
  unfold make_signal.
  destruct (first_trade c), (last_trade c); try discriminate.
  intros H. injection H as <-. simpl. repeat split; reflexivity.
Qed.

Lemma Forall2_In_r {A B : Type} (R : A -> B -> Prop) (l : list A)
    (l' : list B) (b : B) :
  Forall2 R l l' -> In b l' -> exists a, In a l /\ R a b.
Proof.
  induction 1 as [|x y l l' Hxy _ IH]; simpl; [intros []|].
  intros [<-|Hin].
  - exists x. auto.
  - destruct (IH Hin) as (a & Ha & Hr). exists a. auto.
Qed.

Lemma Forall2_with_In {A B : Type} (R : A -> B -> Prop) (l : list A)
    (l' : list B) :
  Forall2 R l l' ->
  forall all, incl l all -> Forall2 (fun a b => In a all /\ R a b) l l'.
Proof.
  induction 1 as [|x y l l' Hxy _ IH]; intros all Hincl; constructor.
  - split; [apply Hincl; left; reflexivity|exact Hxy].
  - apply IH. intros a Ha. apply Hincl. right. exact Ha.
Qed.

Lemma Forall2_filter_length {A B : Type} (R : A -> B -> Prop)
    (p : A -> bool) (q : B -> bool) (l : list A) (l' : list B) :
  (forall a b, R a b -> p a = q b) ->
  Forall2 R l l' ->
  List.length (filter p l) = List.length (filter q l').
Proof.
  intros Hpq. induction 1 as [|x y l l' Hxy _ IH]; simpl; [reflexivity|].
  rewrite (Hpq _ _ Hxy). destruct (q y); simpl; rewrite IH; reflexivity.
Qed.

(** ** The rows behind a candidate *)

Lemma candidate_rows (lf : LazyFrame) (mint_ : string) (fm : option Z)
    (t : string) :
  filter (fun r => String.eqb (trader r) t)
         (filter is_buy (early_trades lf mint_ fm))
  = window_buys lf mint_ fm t.
Proof.
  unfold early_trades, window_buys, buys_until.
  destruct (launch_time lf mint_); [|reflexivity].
  rewrite !filter_filter_and. apply filter_ext. intros r.
  rewrite andb_assoc. reflexivity.
Qed.

Lemma trader_has_group (lf : LazyFrame) (mint_ : string) (fm : option Z)
    (t : string) :
  In t (map trader (filter is_buy (early_trades lf mint_ fm)))
  <-> window_buys lf mint_ fm t <> [].
Proof.
  rewrite <- candidate_rows. split.
  - apply group_nonempty.
  - intros Hne.
    destruct (filter _ (filter is_buy (early_trades lf mint_ fm)))
      as [|r rest] eqn:E; [congruence|].
    assert (Hr : In r (r :: rest)) by (left; reflexivity).
    rewrite <- E in Hr. apply filter_In in Hr. destruct Hr as [Hin Ht].
    apply String.eqb_eq in Ht. subst t. apply in_map. exact Hin.
Qed.

Lemma candidate_is_aggregate (lf : LazyFrame) (mint_ : string)
    (fm : option Z) (th : Q) (c : Candidate) :
  In c (whale_candidates (early_trades lf mint_ fm) th) ->
  c = aggregate (cand_trader c, window_buys lf mint_ fm (cand_trader c))
  /\ window_buys lf mint_ fm (cand_trader c) <> []
  /\ Qle_bool th (total_sol c) = true.
Proof.
  intros Hc. apply whale_candidates_In in Hc.
  destruct Hc as (Hk & Hc & Hth).
  rewrite candidate_rows in Hc. apply trader_has_group in Hk. auto.
Qed.

Lemma count_by_key (ks : list string) (f : string -> Candidate)
    (P : Candidate -> bool) (t : string) :
  NoDup ks ->
  (forall k, cand_trader (f k) = k) ->
  (In t ks ->
   List.length
     (filter (fun c => String.eqb (cand_trader c) t) (filter P (map f ks)))
   = if P (f t) then 1%nat else 0%nat)
  /\ (~ In t ks ->
      List.length
        (filter (fun c => String.eqb (cand_trader c) t) (filter P (map f ks)))
      = 0%nat).
Proof.
  intros Hnd Hkey. induction Hnd as [|k ks Hk _ [IHin IHout]]; simpl.
  - split; [intros []|reflexivity].
  - assert (Hhead :
      List.length
        (filter (fun c => String.eqb (cand_trader c) t)
           (if P (f k) then f k :: filter P (map f ks)
            else filter P (map f ks)))
      = ((if String.eqb k t then (if P (f k) then 1 else 0) else 0)
         + List.length
             (filter (fun c => String.eqb (cand_trader c) t)
                (filter P (map f ks))))%nat).
    { destruct (P (f k)); simpl.
      - rewrite Hkey. destruct (String.eqb k t); reflexivity.
      - destruct (String.eqb k t); reflexivity. }
    rewrite Hhead. destruct (String.eqb k t) eqn:Ekt.
    + apply String.eqb_eq in Ekt. subst k. rewrite (IHout Hk). split.
      * intros _. destruct (P (f t)); reflexivity.
      * intros H. exfalso. apply H. left; reflexivity.
    + apply String.eqb_neq in Ekt. simpl. split.
      * intros [He|Hin]; [congruence|]. apply IHin. exact Hin.
      * intros H. apply IHout. intros Hin. apply H. right; exact Hin.
Qed.

Lemma candidates_of_trader (lf : LazyFrame) (mint_ : string)
    (fm : option Z) (th : Q) (t : string) :
  (window_buys lf mint_ fm t <> [] ->
   List.length
     (filter (fun c => String.eqb (cand_trader c) t)
             (whale_candidates (early_trades lf mint_ fm) th))
   = if Qle_bool th
          (Polars.col_sum (map sol_amount (window_buys lf mint_ fm t)))
     then 1%nat else 0%nat)
  /\ (window_buys lf mint_ fm t = [] ->
      List.length
        (filter (fun c => String.eqb (cand_trader c) t)
                (whale_candidates (early_trades lf mint_ fm) th))
      = 0%nat).
Proof.
  unfold whale_candidates, Polars.group_by. rewrite map_map.
  destruct (count_by_key
              (nodup string_dec
                 (map trader (filter is_buy (early_trades lf mint_ fm))))
              (fun k => aggregate
                 (k, filter (fun r => String.eqb (trader r) k)
                       (filter is_buy (early_trades lf mint_ fm))))
              (fun c => Qle_bool th (total_sol c)) t
              (NoDup_nodup string_dec _) (fun k => eq_refl))
    as [Hin Hout].
  split.
  - intros Hne. rewrite Hin.
    + simpl. rewrite candidate_rows. reflexivity.
    + apply nodup_In, trader_has_group. exact Hne.
  - intros Hnil. apply Hout. rewrite nodup_In, trader_has_group. tauto.
Qed.

(** ** Whale accumulation detector on a batch *)

(** C8, amended.  For a trader who has a buy in the detection window, or for
    a positive threshold: the trader gets exactly one whale signal if and
    only if the sum of the SOL amounts of the trader's buy-direction trades
    within the window is at least the threshold (inclusive), and never more
    than one; the totals of the signal are sums over buy-direction trades
    only. *)
Theorem whale_signal_iff_threshold (lf : LazyFrame) (mint_ : string)
    (fm : option Z) (th : option Q) (t : string) :
  (0 < threshold_of th)%Q \/ window_buys lf mint_ fm t <> [] ->
  exists signals,
    outcome (detect_whale_accumulation lf mint_ fm th) = Ok signals
    /\ (List.length (signals_of t signals) = 1%nat
        <-> (threshold_of th
             <= Polars.col_sum (map sol_amount (window_buys lf mint_ fm t)))%Q)
    /\ (List.length (signals_of t signals) <= 1)%nat
    /\ Forall (fun r => is_buy r = true) (window_buys lf mint_ fm t)
    /\ (forall s, In s (signals_of t signals) ->
          total_sol_accumulated s
          = Polars.col_sum (map sol_amount (window_buys lf mint_ fm t))
          /\ total_tokens_accumulated s
             = Polars.col_sum (map token_amount (window_buys lf mint_ fm t))).
Proof.
  intros Hdom.
  destruct (detect_whale_spec lf mint_ fm th) as (signals & Hrun & Hall).
  exists signals. rewrite Hrun. split; [reflexivity|].
  assert (Hcount :
    List.length (signals_of t signals)
    = List.length
        (filter (fun c => String.eqb (cand_trader c) t)
           (whale_candidates (early_trades lf mint_ fm) (threshold_of th)))).
  { symmetry. unfold signals_of.
    apply (Forall2_filter_length _ _ _ _ _
             (fun c s H => match make_signal_fields mint_ c s H with
                           | conj Ht _ => eq_sym (f_equal
                               (fun k => String.eqb k t) Ht)
                           end) Hall). }
  rewrite Hcount.
  destruct (candidates_of_trader lf mint_ fm (threshold_of th) t)
    as [Hsome Hnone].
  set (total := Polars.col_sum (map sol_amount (window_buys lf mint_ fm t)))
    in *.
  assert (Hlen :
    List.length
      (filter (fun c => String.eqb (cand_trader c) t)
         (whale_candidates (early_trades lf mint_ fm) (threshold_of th)))
    = (if Qle_bool (threshold_of th) total then 1 else 0)%nat).
  { destruct (window_buys lf mint_ fm t) as [|r rest] eqn:W.
    - rewrite (Hnone eq_refl).
      destruct Hdom as [Hpos|Hne]; [|congruence].
      destruct (Qle_bool (threshold_of th) total) eqn:E; [|reflexivity].
      apply Qle_bool_iff in E. unfold total in E. simpl in E. lra.
    - apply Hsome. discriminate. }
  rewrite Hlen.
  split; [|split; [|split]].
  - destruct (Qle_bool (threshold_of th) total) eqn:E.
    + apply Qle_bool_iff in E. tauto.
    + apply Qle_bool_false in E. split; [discriminate|]. intros; lra.
  - destruct (Qle_bool _ _); lia.
  - unfold window_buys. destruct (launch_time lf mint_); [|constructor].
    apply Forall_forall. intros r Hr. apply filter_In in Hr.
    destruct Hr as [_ Hr]. apply andb_true_iff in Hr. destruct Hr as [Hr _].
    apply andb_true_iff in Hr. tauto.
  - intros s Hs. apply filter_In in Hs. destruct Hs as [Hs Ht].
    apply String.eqb_eq in Ht.
    destruct (Forall2_In_r _ _ _ _ Hall Hs) as (c & Hc & Hmk).
    apply make_signal_fields in Hmk.
    destruct Hmk as (Hta & Hsol & Htok & _).
    apply candidate_is_aggregate in Hc. destruct Hc as (Hagg & _).
    rewrite Hsol, Htok, Hagg. simpl. rewrite <- Hta, Ht. split; reflexivity.
Qed.

Lemma whale_signal_iff_threshold_witness :
  exists signals,
    outcome (detect_whale_accumulation Scenarios.scenario_c "MINT"
               Scenarios.five_minutes Scenarios.ten_sol) = Ok signals
    /\ (List.length (signals_of "xavier" signals) = 1%nat
        <-> (threshold_of Scenarios.ten_sol
             <= Polars.col_sum
                  (map sol_amount
                     (window_buys Scenarios.scenario_c "MINT" Scenarios.five_minutes
                        "xavier")))%Q)
    /\ (List.length (signals_of "xavier" signals) <= 1)%nat
    /\ Forall (fun r => is_buy r = true)
         (window_buys Scenarios.scenario_c "MINT" Scenarios.five_minutes "xavier")
    /\ (forall s, In s (signals_of "xavier" signals) ->
          total_sol_accumulated s
          = Polars.col_sum
              (map sol_amount
                 (window_buys Scenarios.scenario_c "MINT" Scenarios.five_minutes "xavier"))
          /\ total_tokens_accumulated s
             = Polars.col_sum
                 (map token_amount
                    (window_buys Scenarios.scenario_c "MINT" Scenarios.five_minutes
                       "xavier"))).
Proof.
  apply (whale_signal_iff_threshold Scenarios.scenario_c "MINT"
           Scenarios.five_minutes Scenarios.ten_sol "xavier").
  left. vm_compute. reflexivity.
Defined.

(** C8, as the specification states it, fails for a trader without a buy
    when the threshold is not positive: with a zero threshold, a trader who
    only sells has an (empty) buy total that reaches the threshold, and
    still gets no signal, since no group exists for that trader. *)
Lemma seller_gets_no_signal :
  (threshold_of (Some 0%Q)
   <= Polars.col_sum
        (map sol_amount
           (window_buys Scenarios.seller_batch "MINT" Scenarios.five_minutes "zed")))%Q
  /\ exists signals,
       detect_whale_accumulation Scenarios.seller_batch "MINT"
         Scenarios.five_minutes (Some 0%Q) = ret signals
       /\ signals_of "zed" signals = [].
Proof.
  split; [vm_compute; discriminate|].
  eexists. split; vm_compute; reflexivity.
Qed.

Lemma signal_has_candidate (lf : LazyFrame) (mint_ : string) (fm : option Z)
    (th : option Q) (signals : list WhaleSignal) (s : WhaleSignal) :
  Forall2 (fun c s => make_signal mint_ c = ret s)
    (whale_candidates (early_trades lf mint_ fm) (threshold_of th)) signals ->
  In s signals ->
  exists c,
    make_signal mint_ c = ret s
    /\ c = aggregate (trader_address s,
                      window_buys lf mint_ fm (trader_address s))
    /\ window_buys lf mint_ fm (trader_address s) <> []
    /\ Qle_bool (threshold_of th) (total_sol c) = true.
Proof.
  intros Hall Hs.
  destruct (Forall2_In_r _ _ _ _ Hall Hs) as (c & Hc & Hmk).
  exists c. split; [exact Hmk|].
  apply make_signal_fields in Hmk. destruct Hmk as (Hta & _).
  apply candidate_is_aggregate in Hc. rewrite Hta. exact Hc.
Qed.

(** C10. Every whale signal has [first_trade_at <= last_trade_at] and a trade
    count of at least one: the two timestamps are the minimum and the maximum
    [observed_at] over the same non-empty list of the trader's buys in the
    window, and the count is the length of that list. *)
Theorem whale_signal_activity_bounds (lf : LazyFrame) (mint_ : string)
    (fm : option Z) (th : option Q) :
  exists signals,
    outcome (detect_whale_accumulation lf mint_ fm th) = Ok signals
    /\ forall s, In s signals ->
         first_trade_at s <= last_trade_at s
         /\ (1 <= trade_count s)%nat
         /\ window_buys lf mint_ fm (trader_address s) <> []
         /\ Polars.col_min
              (map observed_at (window_buys lf mint_ fm (trader_address s)))
            = Some (first_trade_at s)
         /\ Polars.col_max
              (map observed_at (window_buys lf mint_ fm (trader_address s)))
            = Some (last_trade_at s)
         /\ trade_count s
            = List.length (window_buys lf mint_ fm (trader_address s)).
Proof.
  destruct (detect_whale_spec lf mint_ fm th) as (signals & Hrun & Hall).
  exists signals. rewrite Hrun. split; [reflexivity|].
  intros s Hs.
  destruct (signal_has_candidate _ _ _ _ _ _ Hall Hs)
    as (c & Hmk & Hagg & Hne & _).
  apply make_signal_fields in Hmk.
  destruct Hmk as (_ & _ & _ & Hcount & Hfirst & Hlast & _).
  rewrite Hagg in Hcount, Hfirst, Hlast. simpl in Hcount, Hfirst, Hlast.
  set (rows := window_buys lf mint_ fm (trader_address s)) in *.
  destruct (col_min_max_nonempty (map observed_at rows)) as (lo & hi & H).
  { destruct rows; [congruence|discriminate]. }
  destruct H as (Hlo & Hhi & Hle).
  rewrite Hlo in Hfirst. rewrite Hhi in Hlast.
  injection Hfirst as ->. injection Hlast as ->.
  repeat split; try assumption.
  rewrite Hcount. unfold Polars.height.
  destruct rows; [congruence|simpl; lia].
Qed.

Lemma whale_signal_activity_bounds_witness :
  exists s,
    outcome (detect_whale_accumulation Scenarios.scenario_c "MINT"
               Scenarios.five_minutes Scenarios.ten_sol) = Ok [s]
    /\ first_trade_at s <= last_trade_at s
    /\ (1 <= trade_count s)%nat.
Proof.
  destruct (whale_signal_activity_bounds Scenarios.scenario_c "MINT"
              Scenarios.five_minutes Scenarios.ten_sol) as (signals & Hrun & Hbounds).
  vm_compute in Hrun. injection Hrun as <-.
  eexists. split; [vm_compute; reflexivity|].
  match type of Hbounds with
  | forall s, In s [?s0] -> _ =>
      destruct (Hbounds s0 (or_introl eq_refl)) as (Hle & Hcount & _)
  end.
  split; assumption.
Defined.

(** C7. The severity of every whale signal follows the tiers on its
    accumulated total: at least 50 is CRITICAL, otherwise at least 25 is
    HIGH, otherwise at least 15 is MEDIUM, otherwise LOW; a total of 20 is
    MEDIUM. *)
Theorem whale_severity_tiers (lf : LazyFrame) (mint_ : string)
    (fm : option Z) (th : option Q) :
  exists signals,
    outcome (detect_whale_accumulation lf mint_ fm th) = Ok signals
    /\ forall s, In s signals ->
         ((50 <= total_sol_accumulated s)%Q -> ws_severity s = CRITICAL)
         /\ ((25 <= total_sol_accumulated s < 50)%Q -> ws_severity s = HIGH)
         /\ ((15 <= total_sol_accumulated s < 25)%Q -> ws_severity s = MEDIUM)
         /\ ((total_sol_accumulated s < 15)%Q -> ws_severity s = LOW)
         /\ ((total_sol_accumulated s == 20)%Q -> ws_severity s = MEDIUM).
Proof.
  destruct (detect_whale_spec lf mint_ fm th) as (signals & Hrun & Hall).
  exists signals. rewrite Hrun. split; [reflexivity|].
  intros s Hs.
  destruct (Forall2_In_r _ _ _ _ Hall Hs) as (c & _ & Hmk).
  apply make_signal_fields in Hmk.
  destruct Hmk as (_ & Hsol & _ & _ & _ & _ & _ & Hsev & _).
  rewrite Hsev, Hsol. unfold whale_severity.
  destruct (Qle_bool 50 (total_sol c)) eqn:E50;
  destruct (Qle_bool 25 (total_sol c)) eqn:E25;
  destruct (Qle_bool 15 (total_sol c)) eqn:E15;
  reflect_Qle; repeat split; intros; try reflexivity; exfalso; lra.
Qed.

Lemma whale_severity_tiers_witness :
  exists s,
    outcome (detect_whale_accumulation Scenarios.scenario_c "MINT"
               Scenarios.five_minutes Scenarios.ten_sol) = Ok [s]
    /\ trader_address s = "xavier"%string
    /\ (total_sol_accumulated s == 20)%Q
    /\ ws_severity s = MEDIUM.
Proof.
  destruct (whale_severity_tiers Scenarios.scenario_c "MINT"
              Scenarios.five_minutes Scenarios.ten_sol) as (signals & Hrun & Htiers).
  vm_compute in Hrun. injection Hrun as <-.
  eexists. split; [vm_compute; reflexivity|].
  split; [reflexivity|].
  match type of Htiers with
  | forall s, In s [?s0] -> _ =>
      destruct (Htiers s0 (or_introl eq_refl)) as (_ & _ & _ & _ & H20)
  end.
  split; [vm_compute; reflexivity|].
  apply H20. vm_compute. reflexivity.
Defined.

(** C5, as the specification states it, fails when a reserve is zero: the
    qualifying trader below has both reserve values present and non-null, yet
    the signal carries no market-cap estimate. *)
Lemma zero_reserve_gives_no_market_cap :
  exists c s,
    whale_candidates
      (early_trades Scenarios.zero_reserve_batch "MINT" Scenarios.five_minutes)
      (threshold_of Scenarios.ten_sol) = [c]
    /\ detect_whale_accumulation Scenarios.zero_reserve_batch "MINT"
         Scenarios.five_minutes Scenarios.ten_sol = ret [s]
    /\ last_sol_reserves c = Some 0%Q
    /\ last_token_reserves c = Some 1000000%Q
    /\ estimated_market_cap_sol s = None
    /\ estimated_market_cap_sol s <> last_sol_reserves c.
Proof.
  eexists. eexists.
  split; [vm_compute; reflexivity|].
  split; [vm_compute; reflexivity|].
  simpl. repeat split. discriminate.
Qed.

Lemma truthy_false_iff (x : option Q) : truthy x = false <-> null_or_zero x.
Proof.
  destruct x as [q|]; simpl.
  - rewrite negb_false_iff. apply Qeq_bool_iff.
  - tauto.
Qed.

(** C5, amended.  Each signal corresponds to one candidate row.  When both
    reserve values of the row are non-null and non-zero, the estimated market
    cap is the row's last SOL reserve; the estimate is absent exactly when a
    reserve value is null or zero. *)
Theorem market_cap_from_nonzero_reserves (lf : LazyFrame) (mint_ : string)
    (fm : option Z) (th : option Q) :
  exists signals,
    outcome (detect_whale_accumulation lf mint_ fm th) = Ok signals
    /\ Forall2
         (fun c s =>
            trader_address s = cand_trader c
            /\ (~ null_or_zero (last_sol_reserves c) ->
                ~ null_or_zero (last_token_reserves c) ->
                estimated_market_cap_sol s = last_sol_reserves c)
            /\ (estimated_market_cap_sol s = None
                <-> null_or_zero (last_sol_reserves c)
                    \/ null_or_zero (last_token_reserves c)))
         (whale_candidates (early_trades lf mint_ fm) (threshold_of th))
         signals.
Proof.
  destruct (detect_whale_spec lf mint_ fm th) as (signals & Hrun & Hall).
  exists signals. rewrite Hrun. split; [reflexivity|].
  eapply Forall2_impl; [|exact Hall]. simpl. intros c s Hmk.
  apply make_signal_fields in Hmk.
  destruct Hmk as (Hta & _ & _ & _ & _ & _ & Hcap & _).
  split; [exact Hta|]. rewrite Hcap. unfold market_cap.
  rewrite <- !truthy_false_iff.
  destruct (truthy (last_sol_reserves c)) eqn:Es;
  destruct (truthy (last_token_reserves c)) eqn:Et; simpl.
  - split; [reflexivity|]. split.
    + intros H. destruct (last_sol_reserves c); [discriminate|].
      simpl in Es. discriminate.
    + intros [H|H]; discriminate.
  - split; [intros _ H; exfalso; apply H; reflexivity|]. tauto.
  - split; [intros H; exfalso; apply H; reflexivity|]. tauto.
  - split; [intros H; exfalso; apply H; reflexivity|]. tauto.
Qed.

Lemma market_cap_from_nonzero_reserves_witness :
  exists c s,
    whale_candidates
      (early_trades Scenarios.scenario_c "MINT" Scenarios.five_minutes)
      (threshold_of Scenarios.ten_sol) = [c]
    /\ outcome (detect_whale_accumulation Scenarios.scenario_c "MINT"
                  Scenarios.five_minutes Scenarios.ten_sol) = Ok [s]
    /\ estimated_market_cap_sol s = last_sol_reserves c
    /\ last_sol_reserves c = Some 38%Q.
Proof.
  destruct (market_cap_from_nonzero_reserves Scenarios.scenario_c "MINT"
              Scenarios.five_minutes Scenarios.ten_sol)
    as (signals & Hrun & Hall).
  remember (whale_candidates
              (early_trades Scenarios.scenario_c "MINT" Scenarios.five_minutes)
              (threshold_of Scenarios.ten_sol)) as cs eqn:Hcs.
  vm_compute in Hcs. vm_compute in Hrun. injection Hrun as <-.
  subst cs. inversion Hall as [|c s cs' ss' Hrel _]. subst.
  destruct Hrel as (_ & Hcap & _).
  eexists. eexists.
  split; [reflexivity|].
  split; [vm_compute; reflexivity|].
  split; [|reflexivity].
  apply Hcap; simpl; discriminate.
Defined.

(** ** The detection window *)

Lemma detect_whale_unfold (lf : LazyFrame) (mint_ : string)
    (fm : option Z) (th : option Q) :
  detect_whale_accumulation lf mint_ fm th
  = for_each (make_signal mint_)
      (whale_candidates (early_trades lf mint_ fm) (threshold_of th)).
Proof.
  unfold detect_whale_accumulation, early_trades, launch_time.
  set (mint_trades := filter (fun r => String.eqb (mint r) mint_) lf).
  destruct (Nat.eqb (Polars.height mint_trades) 0) eqn:E.
  - apply filter_nil_of_length in E. rewrite E. reflexivity.
  - destruct (Polars.col_min (map observed_at mint_trades)) as [launch|] eqn:M;
      [|reflexivity].
    unfold mint_trades. rewrite filter_filter_and.
    fold (first_window fm). fold (threshold_of th).
    set (early := filter _ lf).
    destruct (Nat.eqb (Polars.height early) 0) eqn:E2; [|reflexivity].
    apply filter_nil_of_length in E2. rewrite E2. reflexivity.
Qed.

Lemma filter_none {A : Type} (p : A -> bool) (l : list A) :
  (forall x, In x l -> p x = false) -> filter p l = [].
Proof.
  induction l as [|x l IH]; simpl; intros H; [reflexivity|].
  rewrite (H x (or_introl eq_refl)). apply IH. intros y Hy. apply H. now right.
Qed.

Lemma mint_trades_without_late (lf : LazyFrame) (mint_ : string) (we : Z) :
  filter (fun r => String.eqb (mint r) mint_) (without_late lf mint_ we)
  = filter (fun r => String.eqb (mint r) mint_ && (observed_at r <=? we)) lf.
Proof.
  unfold without_late. rewrite filter_filter_and. apply filter_ext.
  intros r. destruct (String.eqb (mint r) mint_); simpl; [|reflexivity].
  rewrite Z.leb_antisym, andb_true_r. reflexivity.
Qed.

Lemma launch_time_lower_bound (lf : LazyFrame) (mint_ : string) (launch : Z)
    (r : Trade) :
  launch_time lf mint_ = Some launch ->
  In r lf -> String.eqb (mint r) mint_ = true ->
  launch <= observed_at r.
Proof.
  unfold launch_time. intros Hl Hin Hm. apply col_min_spec in Hl.
  destruct Hl as [_ Hall]. rewrite Forall_forall in Hall.
  apply Hall. apply in_map. apply filter_In. auto.
Qed.

Lemma early_trades_without_late (lf : LazyFrame) (mint_ : string)
    (fm : option Z) (launch : Z) :
  launch_time lf mint_ = Some launch ->
  early_trades (without_late lf mint_ (launch + first_window fm)) mint_ fm
  = early_trades lf mint_ fm.
Proof.
  intros Hl. unfold early_trades. rewrite Hl.
  set (we := launch + first_window fm).
  unfold launch_time. rewrite mint_trades_without_late.
  destruct (Z_le_gt_dec 0 (first_window fm)) as [Hpos|Hneg].
  - assert (Hl' :
      Polars.col_min
        (map observed_at
           (filter (fun r => String.eqb (mint r) mint_
                             && (observed_at r <=? we)) lf)) = Some launch).
    { pose proof Hl as Hspec. unfold launch_time in Hspec.
      apply col_min_spec in Hspec. destruct Hspec as [Hin Hall].
      apply col_min_spec. split.
      - apply in_map_iff in Hin. destruct Hin as (r & Hr & Hin).
        apply filter_In in Hin. destruct Hin as [Hin Hm].
        apply in_map_iff. exists r. split; [exact Hr|].
        apply filter_In. split; [exact Hin|]. rewrite Hm. simpl.
        apply Z.leb_le. unfold we. lia.
      - rewrite Forall_forall in *. intros y Hy.
        apply in_map_iff in Hy. destruct Hy as (r & <- & Hr).
        apply filter_In in Hr. destruct Hr as [Hr Hp].
        apply andb_true_iff in Hp. destruct Hp as [Hm _].
        apply Hall. apply in_map. apply filter_In. auto. }
    rewrite Hl'. fold we. unfold without_late.
    rewrite filter_filter_and. apply filter_ext. intros r.
    destruct (String.eqb (mint r) mint_); simpl; [|reflexivity].
    rewrite (Z.leb_antisym we (observed_at r)).
    destruct (we <? observed_at r); reflexivity.
  - assert (Hnone :
      filter (fun r => String.eqb (mint r) mint_ && (observed_at r <=? we)) lf
      = []).
    { apply filter_none. intros r Hr.
      destruct (String.eqb (mint r) mint_) eqn:Hm; [|reflexivity]. simpl.
      pose proof (launch_time_lower_bound _ _ _ _ Hl Hr Hm).
      apply Z.leb_gt. unfold we. lia. }
    rewrite Hnone. reflexivity.
Qed.

Lemma buys_until_In (lf : LazyFrame) (mint_ t : string) (we : Z) (r : Trade) :
  In r (buys_until lf mint_ t we) <->
  In r lf /\ mint r = mint_ /\ observed_at r <= we
  /\ is_buy r = true /\ trader r = t.
Proof.
  unfold buys_until. rewrite filter_In, !andb_true_iff.
  rewrite !String.eqb_eq, Z.leb_le. tauto.
Qed.

(** C3, as the specification states it, fails: the window is closed at its
    end.  In the batch below the mint launches at 0 and a buy of 10 SOL is
    observed exactly five minutes later; the trader's half-open total is 1,
    yet the detector reports 11 SOL over two trades, the second one at the
    boundary, and reports nothing once the boundary trade is removed. *)
Lemma boundary_trade_is_aggregated :
  launch_time Scenarios.boundary_batch "MINT" = Some 0
  /\ In Scenarios.boundary_trade Scenarios.boundary_batch
  /\ observed_at Scenarios.boundary_trade
     = 0 + first_window Scenarios.five_minutes
  /\ (Polars.col_sum
        (map sol_amount
           (buys_before Scenarios.boundary_batch "MINT" "alice"
              (observed_at Scenarios.boundary_trade))) == 1)%Q
  /\ (exists s,
        detect_whale_accumulation Scenarios.boundary_batch "MINT"
          Scenarios.five_minutes Scenarios.ten_sol = ret [s]
        /\ (total_sol_accumulated s == 11)%Q
        /\ trade_count s = 2%nat
        /\ last_trade_at s = observed_at Scenarios.boundary_trade)
  /\ detect_whale_accumulation
       (filter (fun r => negb (observed_at r
                               =? observed_at Scenarios.boundary_trade))
               Scenarios.boundary_batch)
       "MINT" Scenarios.five_minutes Scenarios.ten_sol = ret [].
Proof.
  split; [reflexivity|].
  split; [right; left; reflexivity|].
  split; [reflexivity|].
  split; [vm_compute; reflexivity|].
  split.
  - eexists. split; [vm_compute; reflexivity|].
    split; [vm_compute; reflexivity|]. split; reflexivity.
  - vm_compute. reflexivity.
Qed.

(** C3, amended.  The detection window is closed: with [launch] the minimum
    [observed_at] of the mint, the trades of the mint observed strictly after
    [launch + first_window] are excluded (removing them leaves the result
    unchanged), a buy observed exactly at [launch + first_window] is among
    the trades aggregated for its trader, and the totals and the count of
    every signal range over the trader's buys observed up to and including
    that instant. *)
Theorem whale_window_is_closed (lf : LazyFrame) (mint_ : string)
    (fm : option Z) (th : option Q) (launch : Z) :
  launch_time lf mint_ = Some launch ->
  detect_whale_accumulation
    (without_late lf mint_ (launch + first_window fm)) mint_ fm th
  = detect_whale_accumulation lf mint_ fm th
  /\ (forall r, In r lf -> mint r = mint_ -> is_buy r = true ->
        observed_at r = launch + first_window fm ->
        In r (window_buys lf mint_ fm (trader r)))
  /\ exists signals,
       outcome (detect_whale_accumulation lf mint_ fm th) = Ok signals
       /\ forall s, In s signals ->
            total_sol_accumulated s
            = Polars.col_sum
                (map sol_amount
                   (buys_until lf mint_ (trader_address s)
                      (launch + first_window fm)))
            /\ total_tokens_accumulated s
               = Polars.col_sum
                   (map token_amount
                      (buys_until lf mint_ (trader_address s)
                         (launch + first_window fm)))
            /\ trade_count s
               = List.length
                   (buys_until lf mint_ (trader_address s)
                      (launch + first_window fm)).
Proof.
  intros Hl. split; [|split].
  - rewrite !detect_whale_unfold.
    rewrite (early_trades_without_late lf mint_ fm launch Hl). reflexivity.
  - intros r Hin Hm Hb Hat. unfold window_buys. rewrite Hl.
    apply buys_until_In. repeat split; try assumption. lia.
  - destruct (detect_whale_spec lf mint_ fm th) as (signals & Hrun & Hall).
    exists signals. rewrite Hrun. split; [reflexivity|].
    intros s Hs.
    destruct (signal_has_candidate _ _ _ _ _ _ Hall Hs)
      as (c & Hmk & Hagg & _).
    apply make_signal_fields in Hmk.
    destruct Hmk as (_ & Hsol & Htok & Hcount & _).
    rewrite Hsol, Htok, Hcount, Hagg. simpl.
    unfold window_buys. rewrite Hl. repeat split; reflexivity.
Qed.

Lemma whale_window_is_closed_witness :
  detect_whale_accumulation
    (without_late Scenarios.boundary_batch "MINT"
       (0 + first_window Scenarios.five_minutes))
    "MINT" Scenarios.five_minutes Scenarios.ten_sol
  = detect_whale_accumulation Scenarios.boundary_batch "MINT"
      Scenarios.five_minutes Scenarios.ten_sol
  /\ In Scenarios.boundary_trade
        (window_buys Scenarios.boundary_batch "MINT" Scenarios.five_minutes
           "alice").
Proof.
  destruct (whale_window_is_closed Scenarios.boundary_batch "MINT"
              Scenarios.five_minutes Scenarios.ten_sol 0 eq_refl)
    as (Hsame & Hin & _).
  split; [exact Hsame|].
  apply (Hin Scenarios.boundary_trade); try reflexivity.
  right; left; reflexivity.
Defined.

(** ** Reserves of the last row *)

Lemma ordered_desc_filter (p : Trade -> bool) (rows : list Trade) :
  ordered_desc rows -> ordered_desc (filter p rows).
Proof.
  induction rows as [|r rows IH]; simpl; [tauto|].
  intros [Hall Hrest]. destruct (p r); simpl; [|apply IH; exact Hrest].
  split; [|apply IH; exact Hrest].
  rewrite Forall_forall in *. intros r' Hr'. apply filter_In in Hr'.
  apply Hall, Hr'.
Qed.

Lemma last_In {A : Type} (l : list A) (d : A) : l <> [] -> In (last l d) l.
Proof.
  intros Hne. destruct (exists_last Hne) as (l' & a & ->).
  rewrite last_last. apply in_or_app. right. left. reflexivity.
Qed.

Lemma ordered_desc_last (rows : list Trade) (d : Trade) :
  ordered_desc rows ->
  Forall (fun r => observed_at (last rows d) <= observed_at r) rows.
Proof.
  induction rows as [|r rows IH]; [constructor|].
  intros [Hall Hrest]. specialize (IH Hrest).
  destruct rows as [|r' rows'].
  - simpl. constructor; [lia|constructor].
  - change (last (r :: r' :: rows') d) with (last (r' :: rows') d).
    constructor; [|exact IH].
    rewrite Forall_forall in Hall. apply Hall.
    apply last_In. discriminate.
Qed.

Lemma col_last_map {A : Type} (f : Trade -> option A) (rows : list Trade)
    (d : Trade) :
  rows <> [] -> Polars.col_last (map f rows) = f (last rows d).
Proof.
  unfold Polars.col_last.
  induction rows as [|r rows IH]; [congruence|]. intros _.
  destruct rows as [|r' rows']; [reflexivity|].
  change (last (map f (r :: r' :: rows')) None)
    with (last (map f (r' :: rows')) None).
  change (last (r :: r' :: rows') d) with (last (r' :: rows') d).
  apply IH. discriminate.
Qed.

Lemma window_buys_desc (lf : LazyFrame) (mint_ : string) (fm : option Z)
    (t : string) :
  ordered_desc lf -> ordered_desc (window_buys lf mint_ fm t).
Proof.
  intros H. unfold window_buys, buys_until.
  destruct (launch_time lf mint_); [|exact I].
  apply ordered_desc_filter. exact H.
Qed.

(** X24. What [last()] returns on a batch ordered by [observed_at]
    descending: the reserves of a buy of the trader observed at
    [first_trade_at], the earliest instant of the trader's activity in the
    window. *)
Lemma desc_batch_last_is_earliest (lf : LazyFrame) (mint_ : string)
    (fm : option Z) (th : option Q) :
  ordered_desc lf ->
  exists signals,
    outcome (detect_whale_accumulation lf mint_ fm th) = Ok signals
    /\ Forall2
         (fun c s =>
            exists r,
              In r (window_buys lf mint_ fm (trader_address s))
              /\ observed_at r = first_trade_at s
              /\ last_sol_reserves c = virtual_sol_reserves r
              /\ last_token_reserves c = virtual_token_reserves r)
         (whale_candidates (early_trades lf mint_ fm) (threshold_of th))
         signals.
Proof.
  intros Hdesc.
  destruct (detect_whale_spec lf mint_ fm th) as (signals & Hrun & Hall).
  exists signals. rewrite Hrun. split; [reflexivity|].
  pose proof (Forall2_with_In _ _ _ Hall _ (incl_refl _)) as Hall'.
  eapply Forall2_impl; [|exact Hall']. simpl. intros c s [Hc Hmk].
  apply make_signal_fields in Hmk.
  destruct Hmk as (Hta & _ & _ & _ & Hfirst & _).
  apply candidate_is_aggregate in Hc. destruct Hc as (Hagg & Hne & _).
  rewrite <- Hta in Hagg, Hne.
  remember (window_buys lf mint_ fm (trader_address s)) as rows eqn:Erows.
  assert (Hd : ordered_desc rows).
  { subst rows. apply window_buys_desc. exact Hdesc. }
  assert (Hd0 : exists d : Trade, True).
  { destruct rows as [|r0 ?]; [congruence|exists r0; exact I]. }
  destruct Hd0 as [d _].
  assert (Hf : Polars.col_min (map observed_at rows)
               = Some (first_trade_at s)).
  { rewrite Hagg in Hfirst. exact Hfirst. }
  exists (last rows d).
  split; [apply last_In; exact Hne|].
  split; [|split].
  - apply col_min_spec in Hf. destruct Hf as [Hin Hmin].
    pose proof (ordered_desc_last _ d Hd) as Hlast.
    rewrite Forall_forall in Hmin, Hlast.
    apply in_map_iff in Hin. destruct Hin as (r & Hr & Hrin).
    pose proof (Hlast r Hrin).
    pose proof (Hmin (observed_at (last rows d))
                  (in_map observed_at _ _ (last_In _ d Hne))).
    lia.
  - rewrite Hagg. apply (col_last_map virtual_sol_reserves rows d Hne).
  - rewrite Hagg. apply (col_last_map virtual_token_reserves rows d Hne).
Qed.

(** C4 on a batch ordered by [observed_at] descending.  The trader buys at 0
    (SOL reserve 100) and two minutes later (SOL reserve 200).  The signal
    spans both trades, and its market-cap estimate is 100, the reserve of
    the earliest trade, while the trader's chronologically last buy in the
    window carries 200. *)
Theorem desc_batch_reserves_are_of_first_trade :
  ordered_desc Scenarios.two_buys_desc
  /\ exists s,
       detect_whale_accumulation Scenarios.two_buys_desc "MINT"
         Scenarios.five_minutes Scenarios.ten_sol = ret [s]
       /\ first_trade_at s = 0
       /\ last_trade_at s = 2 * Scenarios.minute
       /\ estimated_market_cap_sol s = Some 100%Q
       /\ forall r,
            In r (window_buys Scenarios.two_buys_desc "MINT"
                    Scenarios.five_minutes (trader_address s)) ->
            observed_at r = last_trade_at s ->
            virtual_sol_reserves r = Some 200%Q
            /\ estimated_market_cap_sol s <> virtual_sol_reserves r.
Proof.
  split.
  - simpl. repeat split; repeat constructor; vm_compute; discriminate.
  - eexists. split; [vm_compute; reflexivity|].
    split; [reflexivity|]. split; [reflexivity|]. split; [reflexivity|].
    intros r Hr Hat. destruct Hr as [<-|[<-|[]]].
    + split; [reflexivity|discriminate].
    + vm_compute in Hat. discriminate.
Qed.

(** * Further properties of the detectors *)

Local Open Scope Q_scope.

(** X1. The volume detector never raises [ZeroDivisionError]: the division
    of line 94 is executed at most once, and never when the baseline volume
    is zero.  When the two cutoffs of lines 45-46 are representable
    datetimes, the detector returns, and it divides exactly once if the
    baseline volume is non-zero. *)
Theorem volume_detector_division_is_guarded (now : datetime) (lf : LazyFrame)
    (mint_ : string) (rm bm : Z) (th : option Q) :
  outcome (detect_volume_spike now lf mint_ rm bm th)
  <> Raise ZeroDivisionError
  /\ (divisions (detect_volume_spike now lf mint_ rm bm th) <= 1)%nat
  /\ (baseline_volume now lf mint_ rm bm == 0 ->
      divisions (detect_volume_spike now lf mint_ rm bm th) = 0%nat)
  /\ (representable (now - timedelta_minutes rm)%Z ->
      representable (now - timedelta_minutes (rm + bm))%Z ->
      (exists r, outcome (detect_volume_spike now lf mint_ rm bm th) = Ok r)
      /\ (~ baseline_volume now lf mint_ rm bm == 0 ->
          divisions (detect_volume_spike now lf mint_ rm bm th) = 1%nat)).
Proof.
  rewrite detect_volume_spike_unfold.
  set (rv := recent_volume now lf mint_ rm).
  set (bv := baseline_volume now lf mint_ rm bm).
  destruct (Qeq_dec bv 0) as [Hz|Hz].
  - destruct (Qlt_le_dec 0 rv) as [Hlt|Hle].
    + rewrite (spike_signal_of_spike _ _ _ _ _ _ _ _
                 (compute_spike_zero_baseline_active rv bv Hz Hlt)).
      simpl. split; [discriminate|]. split; [lia|]. split; [reflexivity|].
      intros _ _. split; [eexists; reflexivity|tauto].
    + rewrite spike_signal_no_spike.
      * simpl. split; [discriminate|]. split; [lia|]. split; [reflexivity|].
        intros _ _. split; [eexists; reflexivity|tauto].
      * apply compute_spike_zero_baseline_idle; [exact Hz|lra].
  - rewrite (spike_signal_of_spike _ _ _ _ _ _ _ _
               (compute_spike_positive_baseline rv bv Hz)).
    simpl. split; [discriminate|]. split; [lia|]. split; [tauto|].
    intros _ _. split; [eexists; reflexivity|reflexivity].
Qed.

Lemma volume_detector_division_is_guarded_witness :
  (exists r,
     outcome (detect_volume_spike Scenarios.now Scenarios.scenario_a
                "MINT" 5 15 None) = Ok r)
  /\ (~ baseline_volume Scenarios.now Scenarios.scenario_a "MINT" 5 15 == 0 ->
      divisions (detect_volume_spike Scenarios.now Scenarios.scenario_a
                   "MINT" 5 15 None) = 1%nat).
Proof.
  apply (volume_detector_division_is_guarded Scenarios.now
           Scenarios.scenario_a "MINT" 5 15 None).
  - split; vm_compute; discriminate.
  - split; vm_compute; discriminate.
Defined.

Lemma or_count_zero (n : nat) : or_count n 0 = n.
Proof. destruct n; reflexivity. Qed.

Lemma volume_signal_inversion (mint_ : string) (th rv : Q) (rc : nat)
    (bv : Q) (bc : nat) (s : VolumeSignal) :
  outcome (spike_signal mint_ th rv rc bv bc) = Ok (Some s) ->
  exists spike,
    outcome (compute_spike_percentage rv bv) = Ok (Some spike)
    /\ float_ge spike th = true
    /\ s = fired mint_ rv rc bv bc spike.
Proof.
  destruct (Qeq_dec bv 0) as [Hz|Hz].
  - destruct (Qlt_le_dec 0 rv) as [Hlt|Hle].
    + rewrite (spike_signal_of_spike _ _ _ _ _ _ _ _
                 (compute_spike_zero_baseline_active rv bv Hz Hlt)).
      rewrite (compute_spike_zero_baseline_active rv bv Hz Hlt). simpl.
      destruct (float_ge PInf th) eqn:E; [|discriminate].
      intros H. injection H as <-. exists PInf. auto.
    + rewrite spike_signal_no_spike; [discriminate|].
      apply compute_spike_zero_baseline_idle; [exact Hz|lra].
  - rewrite (spike_signal_of_spike _ _ _ _ _ _ _ _
               (compute_spike_positive_baseline rv bv Hz)).
    rewrite (compute_spike_positive_baseline rv bv Hz). simpl.
    destruct (Qle_bool th ((rv - bv) / bv * 100)) eqn:E; [|discriminate].
    intros H. injection H as <-. eexists. split; [reflexivity|]. auto.
Qed.

(** X2. A volume signal reports what it was computed from: the requested
    mint, the buy volumes of the recent and baseline windows and the number
    of buy rows in each window. *)
Theorem volume_signal_reports_its_windows (now : datetime) (lf : LazyFrame)
    (mint_ : string) (rm bm : Z) (th : option Q) (s : VolumeSignal) :
  outcome (detect_volume_spike now lf mint_ rm bm th) = Ok (Some s) ->
  vs_mint s = mint_
  /\ recent_volume_sol s = recent_volume now lf mint_ rm
  /\ baseline_volume_sol s = baseline_volume now lf mint_ rm bm
  /\ trade_count_recent s
     = List.length (filter is_buy (recent_trades now lf mint_ rm))
  /\ trade_count_baseline s
     = List.length (filter is_buy (baseline_trades now lf mint_ rm bm)).
Proof.
  rewrite detect_volume_spike_unfold. intros H.
  apply volume_signal_inversion in H. destruct H as (spike & _ & _ & ->).
  simpl. rewrite !or_count_zero. repeat split; reflexivity.
Qed.

Lemma volume_signal_reports_its_windows_witness :
  exists s,
    outcome (detect_volume_spike Scenarios.now Scenarios.scenario_a
               "MINT" 5 15 None) = Ok (Some s)
    /\ recent_volume_sol s = 500 /\ baseline_volume_sol s = 100
    /\ trade_count_recent s = 2%nat /\ trade_count_baseline s = 1%nat.
Proof.
  eexists. split; [vm_compute; reflexivity|].
  destruct (volume_signal_reports_its_windows Scenarios.now
              Scenarios.scenario_a "MINT" 5 15 None _ eq_refl)
    as (_ & Hr & Hb & Hrc & Hbc).
  split; [exact Hr|]. split; [exact Hb|]. split; [exact Hrc|exact Hbc].
Defined.

Lemma filter_idem_and {A : Type} (p q : A -> bool) (l : list A) :
  (forall x, q x = true -> p x = true) ->
  filter q (filter p l) = filter q l.
Proof.
  intros Hpq. rewrite filter_filter_and. apply filter_ext. intros x.
  destruct (q x) eqn:Eq; [rewrite (Hpq x Eq); reflexivity|].
  apply andb_false_r.
Qed.

(** X3. Sell-direction trades and trades of other mints never influence the
    volume detector: dropping them from the batch leaves its result
    unchanged. *)
Theorem volume_detector_reads_only_buys_of_the_mint (now : datetime)
    (lf : LazyFrame) (mint_ : string) (rm bm : Z) (th : option Q) :
  detect_volume_spike now
    (filter (fun r => String.eqb (mint r) mint_ && is_buy r) lf)
    mint_ rm bm th
  = detect_volume_spike now lf mint_ rm bm th.
Proof.
  assert (Hkeep : forall (w : Trade -> bool),
    filter is_buy
      (filter w
         (filter (fun r => String.eqb (mint r) mint_)
            (filter (fun r => String.eqb (mint r) mint_ && is_buy r) lf)))
    = filter is_buy
        (filter w (filter (fun r => String.eqb (mint r) mint_) lf))).
  { intros w. rewrite !filter_filter_and. apply filter_ext. intros r.
    destruct (String.eqb (mint r) mint_), (is_buy r), (w r); reflexivity. }
  unfold detect_volume_spike, buy_stats, recent_trades, baseline_trades.
  cbv zeta. rewrite !Hkeep. reflexivity.
Qed.

Lemma spike_signal_outcome (mint_ : string) (th rv : Q) (rc : nat) (bv : Q)
    (bc : nat) (spike : pyfloat) :
  outcome (compute_spike_percentage rv bv) = Ok (Some spike) ->
  outcome (spike_signal mint_ th rv rc bv bc)
  = Ok (if float_ge spike th
        then Some (fired mint_ rv rc bv bc spike) else None).
Proof.
  intros H. unfold spike_signal, bind. rewrite H. simpl.
  destruct (float_ge spike th); reflexivity.
Qed.

Lemma float_ge_antitone (spike : pyfloat) (th th' : Q) :
  th' <= th -> float_ge spike th = true -> float_ge spike th' = true.
Proof.
  destruct spike as [q|]; simpl; [|reflexivity].
  rewrite !Qle_bool_iff. intros; lra.
Qed.

(** X4. When the recent buy volume is zero and the baseline is not, the spike
    percentage is exactly -100: the detector returns none for every
    threshold above -100 (the default 300 among them), and a LOW signal
    otherwise. *)
Theorem idle_recent_window_gives_minus_100 (now : datetime) (lf : LazyFrame)
    (mint_ : string) (rm bm : Z) (th : option Q) :
  recent_volume now lf mint_ rm == 0 ->
  ~ baseline_volume now lf mint_ rm bm == 0 ->
  (exists q,
     outcome (compute_spike_percentage (recent_volume now lf mint_ rm)
                (baseline_volume now lf mint_ rm bm)) = Ok (Some (Fin q))
     /\ q == -100)
  /\ (-100 < volume_threshold_of th ->
      outcome (detect_volume_spike now lf mint_ rm bm th) = Ok None)
  /\ (volume_threshold_of th <= -100 ->
      exists s,
        outcome (detect_volume_spike now lf mint_ rm bm th) = Ok (Some s)
        /\ vs_severity s = LOW).
Proof.
  intros Hr Hb. rewrite detect_volume_spike_unfold.
  set (rv := recent_volume now lf mint_ rm) in *.
  set (bv := baseline_volume now lf mint_ rm bm) in *.
  assert (Hq : (rv - bv) / bv * 100 == -100).
  { rewrite Hr. field. exact Hb. }
  pose proof (compute_spike_positive_baseline rv bv Hb) as Hc.
  assert (Ho : outcome (compute_spike_percentage rv bv)
               = Ok (Some (Fin ((rv - bv) / bv * 100)))).
  { rewrite Hc. reflexivity. }
  split; [eexists; split; [exact Ho|exact Hq]|].
  rewrite (spike_signal_outcome _ _ _ _ _ _ _ Ho). simpl. split.
  - intros Hth.
    destruct (Qle_bool (volume_threshold_of th) ((rv - bv) / bv * 100)) eqn:E;
      [|reflexivity].
    apply Qle_bool_iff in E. lra.
  - intros Hth.
    assert (E : Qle_bool (volume_threshold_of th) ((rv - bv) / bv * 100)
                = true) by (apply Qle_bool_iff; lra).
    rewrite E. eexists. split; [reflexivity|]. simpl.
    rewrite (spike_severity_proper _ _ Hq). reflexivity.
Qed.

(** X5. The severity of a volume signal is never below the tier of the
    trigger threshold: with a threshold of at least 300 (the default) no LOW
    signal is emitted, with at least 500 none below HIGH, with at least 1000
    only CRITICAL ones. *)
Theorem volume_severity_at_least_threshold_tier (now : datetime)
    (lf : LazyFrame) (mint_ : string) (rm bm : Z) (th : option Q)
    (s : VolumeSignal) :
  outcome (detect_volume_spike now lf mint_ rm bm th) = Ok (Some s) ->
  severity_le (spike_severity (Fin (volume_threshold_of th))) (vs_severity s)
  /\ (300 <= volume_threshold_of th -> vs_severity s <> LOW).
Proof.
  rewrite detect_volume_spike_unfold. intros H.
  apply volume_signal_inversion in H. destruct H as (spike & _ & Hge & ->).
  simpl.
  assert (Hle : severity_le (spike_severity (Fin (volume_threshold_of th)))
                  (spike_severity spike)).
  { destruct spike as [q|].
    - apply spike_severity_mono. apply Qle_bool_iff. exact Hge.
    - unfold severity_le. simpl.
      destruct (spike_severity (Fin (volume_threshold_of th))); simpl; lia. }
  split; [exact Hle|].
  intros H300 Hlow. rewrite Hlow in Hle. revert Hle.
  unfold severity_le, spike_severity, float_ge.
  destruct (Qle_bool 1000 (volume_threshold_of th)) eqn:E1; [simpl; lia|].
  destruct (Qle_bool 500 (volume_threshold_of th)) eqn:E2; [simpl; lia|].
  destruct (Qle_bool 300 (volume_threshold_of th)) eqn:E3; [simpl; lia|].
  reflect_Qle. lra.
Qed.

(** X6. Lowering the trigger threshold never loses a volume signal: a signal
    returned for one threshold is returned unchanged for every smaller
    one. *)
Theorem lower_threshold_keeps_volume_signal (now : datetime) (lf : LazyFrame)
    (mint_ : string) (rm bm : Z) (th th' : Q) (s : VolumeSignal) :
  th' <= th ->
  outcome (detect_volume_spike now lf mint_ rm bm (Some th)) = Ok (Some s) ->
  outcome (detect_volume_spike now lf mint_ rm bm (Some th')) = Ok (Some s).
Proof.
  intros Hle. rewrite !detect_volume_spike_unfold. intros H.
  apply volume_signal_inversion in H. destruct H as (spike & Hc & Hge & ->).
  rewrite (spike_signal_outcome _ _ _ _ _ _ _ Hc).
  unfold volume_threshold_of in *.
  rewrite (float_ge_antitone spike _ _ Hle Hge). reflexivity.
Qed.

Lemma no_trade_of_mint (lf : LazyFrame) (mint_ : string) :
  Forall (fun r => mint r <> mint_) lf ->
  filter (fun r => String.eqb (mint r) mint_) lf = [].
Proof.
  intros H. apply filter_none. intros r Hr.
  rewrite Forall_forall in H. apply String.eqb_neq. apply H. exact Hr.
Qed.

Lemma detectors_on_unknown_mint (now : datetime) (lf : LazyFrame)
    (mint_ : string) (rm bm : Z) (th : option Q) (fm : option Z)
    (sol_th : option Q) :
  Forall (fun r => mint r <> mint_) lf ->
  detect_volume_spike now lf mint_ rm bm th = ret None
  /\ detect_whale_accumulation lf mint_ fm sol_th = ret [].
Proof.
  intros H. apply no_trade_of_mint in H. split.
  - unfold detect_volume_spike, recent_trades, baseline_trades.
    cbv zeta. rewrite H. reflexivity.
  - unfold detect_whale_accumulation. cbv zeta. rewrite H. reflexivity.
Qed.

(** X7. A mint without any trade in the batch yields nothing: the volume
    detector returns none without dividing, and the whale detector returns
    the empty list. *)
Theorem unknown_mint_yields_nothing (now : datetime) (lf : LazyFrame)
    (mint_ : string) (rm bm : Z) (th : option Q) (fm : option Z)
    (sol_th : option Q) :
  Forall (fun r => mint r <> mint_) lf ->
  detect_volume_spike now lf mint_ rm bm th = ret None
  /\ detect_whale_accumulation lf mint_ fm sol_th = ret [].
Proof. apply detectors_on_unknown_mint. Qed.

(** ** Further properties of the whale detector *)

Lemma distinct_keys_after_filter {Row Key : Type} (key : Row -> Key)
    (keep : Row -> bool) (rows : list Row)
    (Hdistinct : NoDup (map key rows)) :
  NoDup (map key (filter keep rows)).
Proof.
  induction rows as [|row rows IH]; simpl in *; [constructor|].
  inversion Hdistinct as [|? ? Hfresh Hrest]; subst.
  destruct (keep row); simpl; [|exact (IH Hrest)].
  constructor; [|exact (IH Hrest)].
  intros Hin. apply Hfresh. apply in_map_iff in Hin.
  destruct Hin as (other & Hkey & Hother). apply filter_In in Hother.
  apply in_map_iff. exists other. tauto.
Qed.

Lemma whale_candidates_distinct (early : list Trade) (th : Q) :
  NoDup (map cand_trader (whale_candidates early th)).
Proof.
  unfold whale_candidates. apply distinct_keys_after_filter.
  unfold Polars.group_by. rewrite !map_map. simpl.
  rewrite map_id. apply NoDup_nodup.
Qed.

Lemma Forall2_map_eq {A B C : Type} (R : A -> B -> Prop) (f : A -> C)
    (g : B -> C) (l : list A) (l' : list B) :
  (forall a b, R a b -> g b = f a) ->
  Forall2 R l l' -> map g l' = map f l.
Proof.
  intros H. induction 1 as [|x y l l' Hxy _ IH]; simpl; [reflexivity|].
  rewrite (H _ _ Hxy), IH. reflexivity.
Qed.

Lemma whale_severity_mono (p q : Q) :
  p <= q -> severity_le (whale_severity p) (whale_severity q).
Proof.
  intros Hpq. unfold severity_le, whale_severity.
  destruct (Qle_bool 50 p) eqn:P1, (Qle_bool 50 q) eqn:Q1;
  destruct (Qle_bool 25 p) eqn:P2, (Qle_bool 25 q) eqn:Q2;
  destruct (Qle_bool 15 p) eqn:P3, (Qle_bool 15 q) eqn:Q3;
  simpl; try lia; reflect_Qle; exfalso; lra.
Qed.

(** X8. The whale detector never divides, and it returns whenever the end of
    the window (line 171) is a representable datetime.  The signals it
    returns are about pairwise distinct traders, carry the requested mint,
    total at least the threshold, and have a severity no lower than the
    tier of the threshold. *)
Theorem whale_signals_are_distinct_and_qualified (lf : LazyFrame)
    (mint_ : string) (fm : option Z) (th : option Q) :
  divisions (detect_whale_accumulation lf mint_ fm th) = 0%nat
  /\ ((forall launch, launch_time lf mint_ = Some launch ->
         representable (launch + first_window fm)%Z) ->
      exists signals,
        outcome (detect_whale_accumulation lf mint_ fm th) = Ok signals)
  /\ (forall signals,
        outcome (detect_whale_accumulation lf mint_ fm th) = Ok signals ->
        NoDup (map trader_address signals)
        /\ forall s, In s signals ->
             ws_mint s = mint_
             /\ threshold_of th <= total_sol_accumulated s
             /\ severity_le (whale_severity (threshold_of th))
                  (ws_severity s)).
Proof.
  destruct (detect_whale_spec lf mint_ fm th) as (signals & Hrun & Hall).
  rewrite Hrun. simpl. split; [reflexivity|].
  split; [intros _; exists signals; reflexivity|].
  intros signals' H. injection H as <-. split.
  - rewrite (Forall2_map_eq _ cand_trader trader_address _ _
               (fun c s H => proj1 (make_signal_fields mint_ c s H)) Hall).
    apply whale_candidates_distinct.
  - intros s Hs.
    destruct (signal_has_candidate _ _ _ _ _ _ Hall Hs)
      as (c & Hmk & _ & _ & Hth).
    apply make_signal_fields in Hmk.
    destruct Hmk as (_ & Hsol & _ & _ & _ & _ & _ & Hsev & Hmint).
    apply Qle_bool_iff in Hth. rewrite Hsol, Hsev.
    split; [exact Hmint|]. split; [exact Hth|].
    apply whale_severity_mono. exact Hth.
Qed.

Lemma make_signal_functional (mint_ : string) (c : Candidate)
    (s s' : WhaleSignal) :
  make_signal mint_ c = ret s -> make_signal mint_ c = ret s' -> s = s'.
Proof.
  intros H H'. rewrite H in H'. injection H' as ->. reflexivity.
Qed.

Lemma Forall2_filter_functional {A B : Type} (R : A -> B -> Prop)
    (p : A -> bool) (q : B -> bool) (l : list A) (l1 l2 : list B) :
  (forall a b b', R a b -> R a b' -> b = b') ->
  (forall a b, R a b -> p a = q b) ->
  Forall2 R l l1 -> Forall2 R (filter p l) l2 -> l2 = filter q l1.
Proof.
  intros Hfun Hpq H. revert l2.
  induction H as [|x y l l1 Hxy _ IH]; simpl; intros l2 H2.
  - inversion H2. reflexivity.
  - rewrite <- (Hpq _ _ Hxy). destruct (p x).
    + inversion H2 as [|? y' ? l2' Hxy' Hrest]; subst.
      rewrite (Hfun _ _ _ Hxy Hxy'). f_equal. apply IH. exact Hrest.
    + apply IH. exact H2.
Qed.

(** X9. Raising the SOL threshold only removes signals: the signals for a
    larger threshold are, up to their order, the signals for a smaller one
    whose total reaches the larger threshold. *)
Theorem higher_threshold_filters_whale_signals (lf : LazyFrame)
    (mint_ : string) (fm : option Z) (th th' : Q) :
  th <= th' ->
  exists signals signals',
    outcome (detect_whale_accumulation lf mint_ fm (Some th)) = Ok signals
    /\ outcome (detect_whale_accumulation lf mint_ fm (Some th'))
       = Ok signals'
    /\ Permutation signals'
         (filter (fun s => Qle_bool th' (total_sol_accumulated s)) signals).
Proof.
  intros Hle.
  destruct (detect_whale_spec lf mint_ fm (Some th))
    as (signals & Hrun & Hall).
  destruct (detect_whale_spec lf mint_ fm (Some th'))
    as (signals' & Hrun' & Hall').
  exists signals, signals'. rewrite Hrun, Hrun'.
  split; [reflexivity|]. split; [reflexivity|].
  simpl threshold_of in *.
  assert (Hcs :
    whale_candidates (early_trades lf mint_ fm) th'
    = filter (fun c => Qle_bool th' (total_sol c))
        (whale_candidates (early_trades lf mint_ fm) th)).
  { unfold whale_candidates. rewrite filter_filter_and.
    apply filter_ext. intros c.
    destruct (Qle_bool th' (total_sol c)) eqn:E';
      [|symmetry; apply andb_false_r].
    apply Qle_bool_iff in E'.
    assert (E : Qle_bool th (total_sol c) = true)
      by (apply Qle_bool_iff; lra).
    rewrite E. reflexivity. }
  rewrite Hcs in Hall'.
  rewrite (Forall2_filter_functional _ _ _ _ _ _
             (make_signal_functional mint_)
             (fun c s H =>
                f_equal (Qle_bool th')
                  (eq_sym (proj1 (proj2 (make_signal_fields mint_ c s H)))))
             Hall Hall').
  reflexivity.
Qed.

(** X10. The activity a whale signal reports lies inside the detection
    window: [first_trade_at] is not before the launch time and
    [last_trade_at] is not after the launch time plus the first window. *)
Theorem whale_signal_lies_in_window (lf : LazyFrame) (mint_ : string)
    (fm : option Z) (th : option Q) (launch : Z) :
  launch_time lf mint_ = Some launch ->
  exists signals,
    outcome (detect_whale_accumulation lf mint_ fm th) = Ok signals
    /\ forall s, In s signals ->
         (launch <= first_trade_at s)%Z
         /\ (last_trade_at s <= launch + first_window fm)%Z.
Proof.
  intros Hl.
  destruct (detect_whale_spec lf mint_ fm th) as (signals & Hrun & Hall).
  exists signals. rewrite Hrun. split; [reflexivity|].
  intros s Hs.
  destruct (signal_has_candidate _ _ _ _ _ _ Hall Hs)
    as (c & Hmk & Hagg & _).
  apply make_signal_fields in Hmk.
  destruct Hmk as (_ & _ & _ & _ & Hfirst & Hlast & _).
  rewrite Hagg in Hfirst, Hlast. simpl in Hfirst, Hlast.
  apply col_min_spec in Hfirst. apply col_max_spec in Hlast.
  destruct Hfirst as [Hfirst _]. destruct Hlast as [Hlast _].
  apply in_map_iff in Hfirst. destruct Hfirst as (r & <- & Hr).
  apply in_map_iff in Hlast. destruct Hlast as (r' & <- & Hr').
  unfold window_buys in Hr, Hr'. rewrite Hl in Hr, Hr'.
  apply buys_until_In in Hr. apply buys_until_In in Hr'.
  destruct Hr as (Hin & Hm & _). destruct Hr' as (_ & _ & Hle & _).
  split; [|exact Hle].
  apply (launch_time_lower_bound lf mint_ launch r Hl Hin).
  apply String.eqb_eq. exact Hm.
Qed.

(** X11. Trades of other mints never influence the whale detector. *)
Theorem whale_detector_reads_only_the_mint (lf : LazyFrame) (mint_ : string)
    (fm : option Z) (th : option Q) :
  detect_whale_accumulation
    (filter (fun r => String.eqb (mint r) mint_) lf) mint_ fm th
  = detect_whale_accumulation lf mint_ fm th.
Proof.
  unfold detect_whale_accumulation. cbv zeta.
  rewrite (filter_idem_and (fun r => String.eqb (mint r) mint_)
             (fun r => String.eqb (mint r) mint_) lf (fun r H => H)).
  reflexivity.
Qed.


(** * The orchestrator *)

Import SignalConsole AlphaAnalyzer CycleSpec.

Local Open Scope nat_scope.

Lemma append_and_log_fold (xs : list AlphaSignal) (st : CycleState) :
  fold_left append_and_log xs st
  = ((fst st ++ xs)%list, fold_left (fun c s => log_signal s c) xs (snd st)).
Proof.
  revert st. induction xs as [|x xs IH]; intros st; simpl.
  - rewrite app_nil_r. destruct st; reflexivity.
  - rewrite IH. simpl. rewrite <- app_assoc. reflexivity.
Qed.

Lemma log_signals_state (xs : list AlphaSignal) (c : Console) :
  fold_left (fun c s => log_signal s c) xs c
  = {| printed :=
         (printed c
          ++ map (fun s => Panel (get SEVERITY_STYLES (signal_severity s)
                                    "white") s) xs)%list;
       signal_count := signal_count c + List.length xs |}.
Proof.
  revert c. induction xs as [|x xs IH]; intros c; simpl.
  - rewrite app_nil_r, Nat.add_0_r. destruct c; reflexivity.
  - rewrite IH. unfold log_signal, print. simpl.
    rewrite <- app_assoc. simpl. f_equal. lia.
Qed.

Lemma analyze_mints_spec (clock : nat -> datetime) (lf : LazyFrame)
    (mints : list string) (position : nat) (st : CycleState) :
  analyze_mints clock lf mints position st
  = (fold_left (fun c s => log_signal s c)
       (cycle_signals clock lf mints position) (snd st),
     Ok (fst st ++ cycle_signals clock lf mints position)%list).
Proof.
  revert position st.
  induction mints as [|mint_ rest IH]; intros position st; simpl.
  - rewrite app_nil_r. reflexivity.
  - unfold mint_signals.
    destruct (detect_volume_spike_returns (clock position) lf mint_ 5 15 None)
      as (v & Hv).
    destruct (detect_whale_spec lf mint_ None None) as (ws & Hws & _).
    rewrite Hv, Hws. simpl outcome. cbv iota.
    rewrite IH, append_and_log_fold. simpl fst. simpl snd.
    rewrite !fold_left_app.
    destruct v as [v|]; simpl; rewrite <- !app_assoc; reflexivity.
Qed.

(** The state of the console after a cycle, and what the cycle returns. *)
Lemma run_analysis_cycle_spec (clock : nat -> datetime) (lf : LazyFrame)
    (mints : list string) (c : Console) :
  run_analysis_cycle clock lf mints c
  = ({| printed :=
          (printed c
           ++ match mints with
              | [] => [Info "No active tokens in lookback window"]
              | _ :: _ =>
                  Info ("Analyzing " ++ str_of_nat (List.length mints)
                        ++ " active tokens...")
                  :: map (fun s =>
                            Panel (get SEVERITY_STYLES (signal_severity s)
                                     "white") s)
                       (cycle_signals clock lf mints 0)
                  ++ [match cycle_signals clock lf mints 0 with
                      | [] => Info "No alpha signals detected in this cycle"
                      | _ :: _ =>
                          Summary
                            (List.length (cycle_signals clock lf mints 0))
                      end]
              end)%list;
        signal_count :=
          signal_count c + List.length (cycle_signals clock lf mints 0) |},
     Ok (cycle_signals clock lf mints 0)).
Proof.
  unfold run_analysis_cycle. destruct mints as [|mint_ rest].
  - simpl. unfold log_info, print. rewrite Nat.add_0_r. reflexivity.
  - rewrite analyze_mints_spec. simpl fst. simpl snd.
    rewrite log_signals_state. cbn [app].
    set (signals := cycle_signals clock lf (mint_ :: rest) 0).
    unfold log_info, log_summary, print. simpl printed. simpl signal_count.
    destruct signals as [|s signals']; cbn [List.length map app];
      rewrite <- ?app_assoc; cbn [app]; reflexivity.
Qed.

Lemma mint_signals_mint (now : datetime) (lf : LazyFrame) (mint_ : string)
    (s : AlphaSignal) :
  In s (mint_signals now lf mint_) -> signal_mint s = mint_.
Proof.
  unfold mint_signals. intros Hs. apply in_app_or in Hs.
  destruct Hs as [Hs|Hs].
  - destruct (outcome (detect_volume_spike now lf mint_ 5 15 None))
      as [[v|]|e] eqn:Hv; try contradiction.
    destruct Hs as [<-|[]]. simpl.
    rewrite detect_volume_spike_unfold in Hv.
    apply volume_signal_inversion in Hv.
    destruct Hv as (spike & _ & _ & ->). reflexivity.
  - destruct (detect_whale_spec lf mint_ None None) as (ws & Hws & Hall).
    rewrite Hws in Hs. simpl in Hs. apply in_map_iff in Hs.
    destruct Hs as (w & <- & Hw). simpl.
    destruct (Forall2_In_r _ _ _ _ Hall Hw) as (c & _ & Hmk).
    apply make_signal_fields in Hmk. apply Hmk.
Qed.

Lemma cycle_signals_mints (clock : nat -> datetime) (lf : LazyFrame)
    (mints : list string) (position : nat) (s : AlphaSignal) :
  In s (cycle_signals clock lf mints position) -> In (signal_mint s) mints.
Proof.
  revert position. induction mints as [|mint_ rest IH]; intros position;
    simpl; [tauto|].
  intros Hs. apply in_app_or in Hs. destruct Hs as [Hs|Hs].
  - left. symmetry. eapply mint_signals_mint. exact Hs.
  - right. eapply IH. exact Hs.
Qed.

(** X13. An analysis cycle never raises.  It returns, mint by mint in the
    order of the mints, the volume signal of the mint (if any) followed by
    its whale signals; every returned signal is about one of the mints, and
    no mints give the empty list. *)
Theorem cycle_returns_signals_mint_by_mint (clock : nat -> datetime)
    (lf : LazyFrame) (mints : list string) (c : Console) :
  snd (run_analysis_cycle clock lf mints c)
  = Ok (cycle_signals clock lf mints 0)
  /\ Forall (fun s => In (signal_mint s) mints)
       (cycle_signals clock lf mints 0)
  /\ (mints = [] -> snd (run_analysis_cycle clock lf mints c) = Ok []).
Proof.
  rewrite run_analysis_cycle_spec. simpl snd. split; [reflexivity|]. split.
  - apply Forall_forall. intros s. apply cycle_signals_mints.
  - intros ->. reflexivity.
Qed.

Lemma panel_signals_app (xs ys : list Printed) :
  panel_signals (xs ++ ys) = (panel_signals xs ++ panel_signals ys)%list.
Proof. apply flat_map_app. Qed.

Lemma panel_signals_info (message : string) (items : list Printed) :
  panel_signals (Info message :: items) = panel_signals items.
Proof. reflexivity. Qed.

Lemma panel_signals_panels (signals : list AlphaSignal) :
  panel_signals
    (map (fun s => Panel (get SEVERITY_STYLES (signal_severity s) "white") s)
       signals)
  = signals.
Proof.
  unfold panel_signals.
  induction signals as [|s signals IH]; simpl; [reflexivity|].
  f_equal. exact IH.
Qed.

(** X14. The console accounts for a cycle exactly: every returned signal is
    shown in one panel, in the order of the returned list, no other panel is
    printed, earlier output is kept, and the session counter grows by the
    number of returned signals. *)
Theorem cycle_logs_each_signal_once (clock : nat -> datetime)
    (lf : LazyFrame) (mints : list string) (c : Console) :
  exists signals extra,
    snd (run_analysis_cycle clock lf mints c) = Ok signals
    /\ printed (fst (run_analysis_cycle clock lf mints c))
       = (printed c ++ extra)%list
    /\ panel_signals extra = signals
    /\ signal_count (fst (run_analysis_cycle clock lf mints c))
       = signal_count c + List.length signals.
Proof.
  rewrite run_analysis_cycle_spec. simpl fst. simpl snd.
  simpl printed. simpl signal_count.
  set (signals := cycle_signals clock lf mints 0).
  exists signals. eexists.
  split; [reflexivity|]. split; [reflexivity|]. split; [|reflexivity].
  destruct mints as [|mint_ rest]; [reflexivity|].
  rewrite panel_signals_info, panel_signals_app, panel_signals_panels.
  destruct signals; simpl; rewrite ?app_nil_r; reflexivity.
Qed.

(** X15. The last line of a cycle: the note that no token is active when
    there are no mints, otherwise the summary with the number of signals
    when there is one, and the note that no signal was detected when there
    is none. *)
Theorem cycle_closing_line (clock : nat -> datetime) (lf : LazyFrame)
    (mints : list string) (c : Console) :
  last (printed (fst (run_analysis_cycle clock lf mints c))) Blank
  = match mints, cycle_signals clock lf mints 0 with
    | [], _ => Info "No active tokens in lookback window"
    | _ :: _, [] => Info "No alpha signals detected in this cycle"
    | _ :: _, s :: signals => Summary (S (List.length signals))
    end.
Proof.
  rewrite run_analysis_cycle_spec. simpl fst. simpl printed.
  destruct mints as [|mint_ rest].
  - apply last_last.
  - change (?x :: ?l ++ [?y])%list with ((x :: l) ++ [y])%list.
    rewrite app_assoc, last_last.
    destruct (cycle_signals clock lf (mint_ :: rest) 0); reflexivity.
Qed.

Lemma cycle_signals_unknown (clock : nat -> datetime) (lf : LazyFrame)
    (mints : list string) (position : nat) :
  Forall (fun r => ~ In (mint r) mints) lf ->
  cycle_signals clock lf mints position = [].
Proof.
  revert position. induction mints as [|mint_ rest IH]; intros position H;
    simpl; [reflexivity|].
  assert (Hm : Forall (fun r => mint r <> mint_) lf).
  { eapply Forall_impl; [|exact H]. simpl. intros r Hr He. apply Hr.
    left. symmetry. exact He. }
  assert (Hrest : Forall (fun r => ~ In (mint r) rest) lf).
  { eapply Forall_impl; [|exact H]. simpl. intros r Hr Hin. apply Hr.
    right. exact Hin. }
  rewrite (IH _ Hrest). unfold mint_signals.
  destruct (detectors_on_unknown_mint (clock position) lf mint_ 5 15 None
              None None Hm) as [-> ->].
  reflexivity.
Qed.

(** X16. The mints and the batch come from two separate reads.  When no
    trade of the batch belongs to any of the mints, and in particular when
    the batch is empty, the cycle returns no signal, fails nowhere, and
    leaves the session counter unchanged. *)
Theorem cycle_on_unrelated_batch (clock : nat -> datetime) (lf : LazyFrame)
    (mints : list string) (c : Console) :
  Forall (fun r => ~ In (mint r) mints) lf ->
  snd (run_analysis_cycle clock lf mints c) = Ok []
  /\ signal_count (fst (run_analysis_cycle clock lf mints c))
     = signal_count c
  /\ panel_signals (printed (fst (run_analysis_cycle clock lf mints c)))
     = panel_signals (printed c).
Proof.
  intros H. rewrite run_analysis_cycle_spec. simpl fst. simpl snd.
  rewrite (cycle_signals_unknown clock lf mints 0 H). simpl.
  split; [reflexivity|]. split; [lia|].
  rewrite panel_signals_app. destruct mints; simpl; apply app_nil_r.
Qed.

(** * Ingestion *)

Import DataIngestionService.

Local Open Scope Z_scope.

Lemma insert_desc_perm (row : PumpfunTrade) (sorted : list PumpfunTrade) :
  Permutation (insert_desc row sorted) (row :: sorted).
Proof.
  induction sorted as [|r rest IH]; simpl; [reflexivity|].
  destruct (db_observed_at r <=? db_observed_at row); [reflexivity|].
  rewrite IH. apply perm_swap.
Qed.

Lemma order_by_perm (rows : list PumpfunTrade) :
  Permutation (order_by_observed_at_desc rows) rows.
Proof.
  induction rows as [|r rows IH]; simpl; [reflexivity|].
  rewrite insert_desc_perm. constructor. exact IH.
Qed.

Lemma insert_desc_ordered (row : PumpfunTrade) (sorted : list PumpfunTrade) :
  ordered_desc (map frame_row sorted) ->
  ordered_desc (map frame_row (insert_desc row sorted)).
Proof.
  induction sorted as [|r rest IH]; simpl.
  - intros _. split; [constructor|exact I].
  - intros [Hall Hrest].
    destruct (db_observed_at r <=? db_observed_at row) eqn:E; simpl.
    + apply Z.leb_le in E. split; [|split; assumption].
      constructor; [exact E|].
      eapply Forall_impl; [|exact Hall]. simpl. intros; lia.
    + apply Z.leb_gt in E. split; [|apply IH; exact Hrest].
      apply (Permutation_Forall
               (Permutation_map frame_row
                  (Permutation_sym (insert_desc_perm row rest)))).
      simpl. constructor; [simpl; lia|exact Hall].
Qed.

Lemma order_by_ordered (rows : list PumpfunTrade) :
  ordered_desc (map frame_row (order_by_observed_at_desc rows)).
Proof.
  induction rows as [|r rows IH]; simpl; [exact I|].
  apply insert_desc_ordered. exact IH.
Qed.

Lemma fetch_unfold (now : datetime) (table : list PumpfunTrade)
    (minutes : option Z) :
  fetch_recent_pumpfun_trades now table minutes
  = map frame_row
      (select_recent table
         (now - timedelta_minutes
                  match minutes with
                  | None => lookback_minutes settings
                  | Some m => m
                  end)).
Proof.
  unfold fetch_recent_pumpfun_trades. cbv zeta.
  destruct (select_recent table _); reflexivity.
Qed.

Lemma map_filter_swap {A B : Type} (f : A -> B) (p : B -> bool)
    (l : list A) :
  map f (filter (fun x => p (f x)) l) = filter p (map f l).
Proof.
  induction l as [|x l IH]; simpl; [reflexivity|].
  destruct (p (f x)); simpl; rewrite IH; reflexivity.
Qed.

Lemma fetch_perm (now : datetime) (table : list PumpfunTrade)
    (minutes : option Z) :
  Permutation
    (fetch_recent_pumpfun_trades now table minutes)
    (filter (fun r => now - timedelta_minutes
                             match minutes with
                             | None => lookback_minutes settings
                             | Some m => m
                             end <=? observed_at r)
            (map frame_row table)).
Proof.
  rewrite fetch_unfold. unfold select_recent.
  rewrite <- (map_filter_swap frame_row
                (fun r => _ <=? observed_at r) table).
  apply Permutation_map. apply order_by_perm.
Qed.

(** X17. What the read of recent trades returns for a table: a frame ordered
    by [observed_at] descending, whose rows are exactly the rows of the
    table observed at or after the cutoff (none lost, none duplicated), all
    with non-null reserves. *)
Theorem fetch_returns_the_recent_rows_newest_first (now : datetime)
    (table : list PumpfunTrade) (minutes : option Z) :
  ordered_desc (fetch_recent_pumpfun_trades now table minutes)
  /\ Permutation
       (fetch_recent_pumpfun_trades now table minutes)
       (map frame_row
          (filter (fun row =>
                     now - timedelta_minutes
                             match minutes with
                             | None => lookback_minutes settings
                             | Some m => m
                             end <=? db_observed_at row) table))
  /\ Forall (fun r =>
               now - timedelta_minutes
                       match minutes with
                       | None => lookback_minutes settings
                       | Some m => m
                       end <= observed_at r
               /\ virtual_sol_reserves r <> None
               /\ virtual_token_reserves r <> None)
       (fetch_recent_pumpfun_trades now table minutes).
Proof.
  split; [|split].
  - rewrite fetch_unfold. apply order_by_ordered.
  - rewrite fetch_unfold. apply Permutation_map. apply order_by_perm.
  - apply Forall_forall. intros r Hr.
    apply (Permutation_in _ (fetch_perm now table minutes)) in Hr.
    apply filter_In in Hr. destruct Hr as [Hr Hcut].
    apply Z.leb_le in Hcut. split; [exact Hcut|].
    apply in_map_iff in Hr. destruct Hr as (row & <- & _).
    simpl. split; discriminate.
Qed.

Lemma launch_time_some_iff (lf : LazyFrame) (mint_ : string) :
  launch_time lf mint_ <> None <-> exists r, In r lf /\ mint r = mint_.
Proof.
  unfold launch_time. split.
  - intros H.
    destruct (filter (fun r => String.eqb (mint r) mint_) lf)
      as [|r rest] eqn:E; [exfalso; apply H; reflexivity|].
    assert (Hr : In r (r :: rest)) by (left; reflexivity).
    rewrite <- E in Hr. apply filter_In in Hr. exists r.
    rewrite <- String.eqb_eq. exact Hr.
  - intros (r & Hr & Hm) H.
    assert (Hin : In r (filter (fun r => String.eqb (mint r) mint_) lf)).
    { apply filter_In. split; [exact Hr|]. apply String.eqb_eq. exact Hm. }
    destruct (filter (fun r => String.eqb (mint r) mint_) lf);
      [exact Hin|discriminate].
Qed.

(** X18. The list of active mints has no duplicates and holds exactly the
    mints with a trade at or after the cutoff.  Read at the same instant from
    the same table, it holds exactly the mints for which the fetched frame
    has a launch time, so the whale detector finds trades for every mint the
    cycle visits. *)
Theorem unique_mints_are_the_mints_of_the_frame (now : datetime)
    (table : list PumpfunTrade) (minutes : option Z) (m : string) :
  NoDup (get_unique_mints now table minutes)
  /\ (In m (get_unique_mints now table minutes)
      <-> exists row,
            In row table /\ db_mint row = m
            /\ now - timedelta_minutes
                       match minutes with
                       | None => lookback_minutes settings
                       | Some m => m
                       end <= db_observed_at row)
  /\ (In m (get_unique_mints now table minutes)
      <-> launch_time (fetch_recent_pumpfun_trades now table minutes) m
          <> None).
Proof.
  assert (Hin :
    In m (get_unique_mints now table minutes)
    <-> exists row,
          In row table /\ db_mint row = m
          /\ now - timedelta_minutes
                     match minutes with
                     | None => lookback_minutes settings
                     | Some m => m
                     end <= db_observed_at row).
  { unfold get_unique_mints. cbv zeta. rewrite nodup_In, in_map_iff. split.
    - intros (row & Hm & Hrow). apply filter_In in Hrow.
      exists row. rewrite <- Z.leb_le. tauto.
    - intros (row & Hrow & Hm & Hcut). exists row. split; [exact Hm|].
      apply filter_In. rewrite Z.leb_le. tauto. }
  split; [apply NoDup_nodup|]. split; [exact Hin|].
  rewrite Hin, launch_time_some_iff. split.
  - intros (row & Hrow & Hm & Hcut). exists (frame_row row).
    split; [|exact Hm].
    apply (Permutation_in _ (Permutation_sym (fetch_perm now table minutes))).
    apply filter_In. split; [apply in_map; exact Hrow|].
    apply Z.leb_le. exact Hcut.
  - intros (r & Hr & Hm).
    apply (Permutation_in _ (fetch_perm now table minutes)) in Hr.
    apply filter_In in Hr. destruct Hr as [Hr Hcut].
    apply in_map_iff in Hr. destruct Hr as (row & <- & Hrow).
    exists row. rewrite <- Z.leb_le. tauto.
Qed.

Lemma Permutation_filter_own {A : Type} (p : A -> bool) (l l' : list A) :
  Permutation l l' -> Permutation (filter p l) (filter p l').
Proof.
  induction 1 as [|x l l' _ IH|x y l|l l' l'' _ IH1 _ IH2]; simpl.
  - constructor.
  - destruct (p x); [constructor|]; exact IH.
  - destruct (p x), (p y); try reflexivity. apply perm_swap.
  - etransitivity; eassumption.
Qed.

Lemma window_of_recent_frame (cutoff : Z) (w : Trade -> bool)
    (mint_ : string) (lf lf' : LazyFrame) :
  (forall r, w r = true -> cutoff <= observed_at r) ->
  Permutation lf' (filter (fun r => cutoff <=? observed_at r) lf) ->
  Permutation
    (filter w (filter (fun r => String.eqb (mint r) mint_) lf'))
    (filter w (filter (fun r => String.eqb (mint r) mint_) lf)).
Proof.
  intros Hw Hperm.
  apply (Permutation_filter_own (fun r => String.eqb (mint r) mint_)) in Hperm.
  apply (Permutation_filter_own w) in Hperm.
  rewrite Hperm.
  assert (E :
    filter w
      (filter (fun r => String.eqb (mint r) mint_)
         (filter (fun r => cutoff <=? observed_at r) lf))
    = filter w (filter (fun r => String.eqb (mint r) mint_) lf)).
  { rewrite !filter_filter_and. apply filter_ext. intros r.
    destruct (w r) eqn:Ew.
    - rewrite (proj2 (Z.leb_le _ _) (Hw r Ew)). reflexivity.
    - rewrite !andb_false_r. reflexivity. }
  rewrite E. reflexivity.
Qed.

(** X19. The lookback covers the windows of the volume detector.  When the
    recent window and the recent plus baseline windows fit in the lookback
    (5 and 5 + 15 minutes in 20 by default) and the detector reads the clock
    no earlier than the fetch did, the fetch loses no row of either window:
    the rows of each window in the fetched frame are, up to their order,
    the rows of that window in the whole table, and so are the buy rows the
    detector counts. *)
Theorem lookback_covers_volume_windows (now now' : datetime)
    (table : list PumpfunTrade) (mint_ : string) (rm bm : Z) :
  now <= now' ->
  rm <= lookback_minutes settings ->
  rm + bm <= lookback_minutes settings ->
  Permutation
    (recent_trades now' (fetch_recent_pumpfun_trades now table None)
       mint_ rm)
    (recent_trades now' (map frame_row table) mint_ rm)
  /\ Permutation
       (baseline_trades now' (fetch_recent_pumpfun_trades now table None)
          mint_ rm bm)
       (baseline_trades now' (map frame_row table) mint_ rm bm)
  /\ window_count
       (buy_stats
          (recent_trades now' (fetch_recent_pumpfun_trades now table None)
             mint_ rm))
     = window_count
         (buy_stats (recent_trades now' (map frame_row table) mint_ rm))
  /\ window_count
       (buy_stats
          (baseline_trades now' (fetch_recent_pumpfun_trades now table None)
             mint_ rm bm))
     = window_count
         (buy_stats (baseline_trades now' (map frame_row table) mint_ rm bm)).
Proof.
  intros Hnow Hrm Hbm.
  pose proof (fetch_perm now table None) as Hperm.
  assert (Hrecent :
    Permutation
      (recent_trades now' (fetch_recent_pumpfun_trades now table None)
         mint_ rm)
      (recent_trades now' (map frame_row table) mint_ rm)).
  { unfold recent_trades.
    eapply window_of_recent_frame; [|exact Hperm].
    intros r Hr. apply Z.leb_le in Hr.
    unfold timedelta_minutes in *. simpl in *. lia. }
  assert (Hbase :
    Permutation
      (baseline_trades now' (fetch_recent_pumpfun_trades now table None)
         mint_ rm bm)
      (baseline_trades now' (map frame_row table) mint_ rm bm)).
  { unfold baseline_trades.
    eapply window_of_recent_frame; [|exact Hperm].
    intros r Hr. apply andb_true_iff in Hr. destruct Hr as [Hr _].
    apply Z.leb_le in Hr.
    unfold timedelta_minutes in *. simpl in *. lia. }
  split; [exact Hrecent|]. split; [exact Hbase|].
  unfold buy_stats, Polars.height. simpl. split.
  - apply Permutation_length, Permutation_filter_own, Hrecent.
  - apply Permutation_length, Permutation_filter_own, Hbase.
Qed.

Lemma col_min_perm (xs ys : list Z) :
  Permutation xs ys -> Polars.col_min xs = Polars.col_min ys.
Proof.
  intros H. destruct (Polars.col_min xs) as [m|] eqn:E.
  - symmetry. apply col_min_spec. apply col_min_spec in E.
    destruct E as [Hin Hall]. split.
    + eapply Permutation_in; eassumption.
    + eapply Permutation_Forall; eassumption.
  - destruct xs; [|discriminate].
    apply Permutation_nil in H. subst. reflexivity.
Qed.

(** X20. On a fetched frame the launch time of a mint is the earliest trade
    of the mint inside the lookback, not its earliest trade in the table: it
    is never older than the cutoff of the read. *)
Theorem launch_time_is_bounded_by_the_lookback (now : datetime)
    (table : list PumpfunTrade) (minutes : option Z) (mint_ : string) :
  launch_time (fetch_recent_pumpfun_trades now table minutes) mint_
  = Polars.col_min
      (map db_observed_at
         (filter (fun row =>
                    String.eqb (db_mint row) mint_
                    && (now - timedelta_minutes
                                match minutes with
                                | None => lookback_minutes settings
                                | Some m => m
                                end <=? db_observed_at row)) table))
  /\ forall launch,
       launch_time (fetch_recent_pumpfun_trades now table minutes) mint_
       = Some launch ->
       now - timedelta_minutes
               match minutes with
               | None => lookback_minutes settings
               | Some m => m
               end <= launch.
Proof.
  set (cutoff := now - timedelta_minutes _).
  assert (Heq :
    launch_time (fetch_recent_pumpfun_trades now table minutes) mint_
    = Polars.col_min
        (map db_observed_at
           (filter (fun row => String.eqb (db_mint row) mint_
                               && (cutoff <=? db_observed_at row)) table))).
  { unfold launch_time. apply col_min_perm.
    pose proof (fetch_perm now table minutes) as Hperm. fold cutoff in Hperm.
    apply (Permutation_filter_own (fun r => String.eqb (mint r) mint_))
      in Hperm.
    apply (Permutation_map observed_at) in Hperm. rewrite Hperm.
    rewrite filter_filter_and.
    rewrite <- (map_filter_swap frame_row
                  (fun r => (cutoff <=? observed_at r)
                            && String.eqb (mint r) mint_) table).
    rewrite map_map. simpl.
    rewrite (filter_ext
               (fun x => (cutoff <=? db_observed_at x)
                         && String.eqb (db_mint x) mint_)
               (fun row => String.eqb (db_mint row) mint_
                           && (cutoff <=? db_observed_at row))
               (fun x => andb_comm _ _)).
    reflexivity. }
  split; [exact Heq|].
  intros launch Hl. rewrite Heq in Hl. apply col_min_spec in Hl.
  destruct Hl as [Hin _]. apply in_map_iff in Hin.
  destruct Hin as (row & <- & Hrow). apply filter_In in Hrow.
  destruct Hrow as [_ Hrow]. apply andb_true_iff in Hrow.
  apply Z.leb_le. apply Hrow.
Qed.

(** * The runner *)

Import QuantInsightRunner.

Local Open Scope nat_scope.

Lemma starts_app (xs ys : list Printed) :
  filter is_cycle_start (xs ++ ys)
  = (filter is_cycle_start xs ++ filter is_cycle_start ys)%list.
Proof. apply filter_app. Qed.

Lemma no_start_among_panels (signals : list AlphaSignal) :
  filter is_cycle_start
    (map (fun s => Panel (get SEVERITY_STYLES (signal_severity s) "white") s)
       signals)
  = [].
Proof. induction signals; simpl; auto. Qed.

Lemma no_start_in_cycle_output (n : string) (signals : list AlphaSignal)
    (closing : Printed) :
  is_cycle_start closing = false ->
  filter is_cycle_start
    (Info ("Analyzing " ++ n)
     :: map (fun s => Panel (get SEVERITY_STYLES (signal_severity s) "white")
                        s) signals
     ++ [closing])%list
  = [].
Proof.
  intros H. simpl. rewrite starts_app, no_start_among_panels. simpl.
  rewrite H. reflexivity.
Qed.

Lemma start_line_is_start (n : string) :
  is_cycle_start (Info ("Starting analysis cycle #" ++ n)) = true.
Proof. simpl. destruct n; reflexivity. Qed.

Lemma handle_shutdown_fold (ds : list nat) (c : Console) :
  cycles_started (fold_left handle_shutdown ds c) = cycles_started c
  /\ signal_count (fold_left handle_shutdown ds c) = signal_count c.
Proof.
  revert c. induction ds as [|d ds IH]; intros c; simpl; [auto|].
  destruct (IH (handle_shutdown c d)) as [-> ->].
  unfold cycles_started, handle_shutdown, log_info, print. simpl.
  rewrite starts_app. simpl. rewrite app_nil_r. auto.
Qed.

Section RunnerFacts.

Variable str_exn : exn -> string.

Lemma guarded_cycle_spec (turn : Turn) (c : Console) :
  cycles_started (guarded_cycle str_exn (cycle_input turn) c)
  = cycles_started c
  /\ signal_count (guarded_cycle str_exn (cycle_input turn) c)
     = signal_count c + turn_signal_count turn.
Proof.
  unfold turn_signal_count, guarded_cycle.
  destruct (cycle_input turn) as [error|clock lf mints].
  - unfold cycles_started, log_error, print. simpl.
    rewrite starts_app. simpl. rewrite app_nil_r. auto.
  - rewrite run_analysis_cycle_spec. unfold cycles_started.
    cbn [fst snd printed signal_count].
    split; [|reflexivity].
    rewrite starts_app. destruct mints as [|mint_ rest].
    + simpl. rewrite app_nil_r. reflexivity.
    + rewrite no_start_in_cycle_output; [rewrite app_nil_r; reflexivity|].
      destruct (cycle_signals clock lf (mint_ :: rest) 0); reflexivity.
Qed.

Lemma run_loop_stopped (turns : list Turn) (k : nat) (c : Console) :
  run_loop str_exn turns true k c = (log_shutdown c, Returned).
Proof. destruct turns; reflexivity. Qed.

Lemma run_loop_spec (turns : list Turn) (k : nat) (c : Console) :
  cycles_started (fst (run_loop str_exn turns false k c))
  = cycles_started c + List.length (turns_run turns)
  /\ snd (run_loop str_exn turns false k c)
     = (if shutdown_requested turns then Returned else Running)
  /\ signal_count (fst (run_loop str_exn turns false k c))
     = signal_count c + list_sum (map turn_signal_count (turns_run turns))
  /\ (shutdown_requested turns = true ->
      last (printed (fst (run_loop str_exn turns false k c))) Blank
      = Shutdown (signal_count (fst (run_loop str_exn turns false k c)))).
Proof.
  revert k c. induction turns as [|turn rest IH]; intros k c.
  - simpl. repeat split; try lia; discriminate.
  - cbn [run_loop turns_run shutdown_requested existsb].
    set (c1 := log_info _ c).
    set (c2 := guarded_cycle str_exn (cycle_input turn) c1).
    set (c3 := fold_left handle_shutdown (delivered turn) c2).
    assert (Hstart : cycles_started c3 = S (cycles_started c)
                     /\ signal_count c3
                        = signal_count c + turn_signal_count turn).
    { unfold c3. destruct (handle_shutdown_fold (delivered turn) c2)
        as [-> ->].
      unfold c2. destruct (guarded_cycle_spec turn c1) as [-> ->].
      unfold c1, cycles_started, log_info, print. cbn [printed signal_count].
      rewrite starts_app. cbn [filter]. rewrite start_line_is_start.
      rewrite length_app. simpl. lia. }
    destruct Hstart as [Hs Hc].
    destruct (delivered turn) as [|d ds] eqn:Ed.
    + simpl orb. destruct (IH (S k) c3) as (H1 & H2 & H3 & H4).
      split; [rewrite H1, Hs; simpl; lia|].
      split; [exact H2|].
      split; [rewrite H3, Hc; simpl; lia|exact H4].
    + rewrite run_loop_stopped. simpl.
      unfold cycles_started, log_shutdown, print in *. simpl.
      rewrite starts_app, length_app. simpl.
      rewrite last_last. repeat split; try lia.
Qed.

End RunnerFacts.

Lemma log_shutdown_starts (c : Console) :
  cycles_started (log_shutdown c) = cycles_started c.
Proof.
  unfold cycles_started, log_shutdown, print. simpl.
  rewrite starts_app. simpl. apply f_equal, app_nil_r.
Qed.

Lemma log_shutdown_last (c : Console) :
  last (printed (log_shutdown c)) Blank = Shutdown (signal_count c).
Proof. unfold log_shutdown, print. simpl. apply last_last. Qed.

(** The class defines no member named [print]. *)
Lemma console_has_no_print : getattr members "print" = None.
Proof. reflexivity. Qed.

(** X21. [run] never reaches its loop, whatever turns the environment
    holds ready.  After a failed health check it exits with code 1.  After a
    successful one the call of line 58 looks up [print] among the members
    of [SignalConsole], finds none and raises [AttributeError].  In both
    cases no cycle is started, no signal is logged, and the last line
    printed is the health-check error or the "System ready" line, not a
    shutdown summary. *)
Theorem run_stops_before_the_loop (str_exn : exn -> string)
    (version : string) (db_ok : bool) (early : list nat) (turns : list Turn)
    (c : Console) :
  snd (run str_exn version db_ok early turns c)
  = (if db_ok then Raised (AttributeError "print") else SystemExit 1)
  /\ cycles_started (fst (run str_exn version db_ok early turns c))
     = cycles_started c
  /\ signal_count (fst (run str_exn version db_ok early turns c))
     = signal_count c
  /\ last (printed (fst (run str_exn version db_ok early turns c))) Blank
     = (if db_ok then Success "System ready, starting analysis loop"
        else Error "Health check failed, exiting").
Proof.
  unfold run.
  set (c0 := log_info "Running system health check..."
               (log_startup version (analysis_interval_seconds settings) c)).
  assert (H0 : cycles_started c0 = cycles_started c
               /\ signal_count c0 = signal_count c).
  { unfold c0, cycles_started, log_info, log_startup, print. simpl.
    rewrite !starts_app. simpl. rewrite !app_nil_r. auto. }
  destruct (handle_shutdown_fold early c0) as [Hs Hc].
  destruct H0 as [Hs0 Hc0]. rewrite Hs0 in Hs. rewrite Hc0 in Hc.
  set (c1 := fold_left handle_shutdown early c0) in *.
  destruct db_ok; unfold health_check; cbn [negb fst snd].
  - unfold call_without_arguments. rewrite console_has_no_print.
    cbn [fst snd]. split; [reflexivity|].
    unfold cycles_started, log_success, log_info, print in *.
    cbn [printed signal_count]. rewrite !starts_app. simpl filter.
    rewrite !app_nil_r. split; [exact Hs|]. split; [exact Hc|].
    apply last_last.
  - split; [reflexivity|].
    unfold cycles_started, log_error, print in *.
    cbn [printed signal_count]. rewrite !starts_app. simpl filter.
    rewrite !app_nil_r. split; [exact Hs|]. split; [exact Hc|].
    apply last_last.
Qed.

(** X22. How long the loop of lines 60-82 runs once entered with the
    shutdown event clear: it starts one cycle per turn up to and including
    the first turn during which a signal is delivered, then returns; a
    failing read or cycle never ends it.  Entered with the event set, it
    starts no cycle and returns at once. *)
Theorem loop_runs_until_shutdown (str_exn : exn -> string)
    (turns : list Turn) (set_at_entry : bool) (k : nat) (c : Console) :
  snd (run_loop str_exn turns set_at_entry k c)
  = (if set_at_entry then Returned
     else if shutdown_requested turns then Returned else Running)
  /\ cycles_started (fst (run_loop str_exn turns set_at_entry k c))
     = cycles_started c
       + (if set_at_entry then 0 else List.length (turns_run turns)).
Proof.
  destruct set_at_entry.
  - rewrite run_loop_stopped. cbn [fst snd].
    rewrite log_shutdown_starts. auto.
  - destruct (run_loop_spec str_exn turns k c) as (H1 & H2 & _). auto.
Qed.

(** X23. When the loop returns, the last thing printed is the shutdown
    summary, and its total is the session counter at entry plus the number
    of signals returned by the cycles that ran; failed reads add nothing. *)
Theorem loop_shutdown_reports_session_total (str_exn : exn -> string)
    (turns : list Turn) (set_at_entry : bool) (k : nat) (c : Console) :
  snd (run_loop str_exn turns set_at_entry k c) = Returned ->
  last (printed (fst (run_loop str_exn turns set_at_entry k c))) Blank
  = Shutdown
      (signal_count c
       + (if set_at_entry then 0
          else list_sum (map turn_signal_count (turns_run turns)))).
Proof.
  destruct set_at_entry.
  - intros _. rewrite run_loop_stopped. cbn [fst].
    rewrite log_shutdown_last, Nat.add_0_r. reflexivity.
  - destruct (run_loop_spec str_exn turns k c) as (_ & H2 & H3 & H4).
    rewrite H2. intros Hrun.
    destruct (shutdown_requested turns); [|discriminate].
    rewrite (H4 eq_refl), H3. reflexivity.
Qed.

Lemma loop_shutdown_reports_session_total_witness :
  last (printed
          (fst (run_loop (fun _ => "error"%string) MoreScenarios.turns false 0
                  init))) Blank
  = Shutdown 3.
Proof.
  rewrite (loop_shutdown_reports_session_total (fun _ => "error"%string)
             MoreScenarios.turns false 0 init).
  - vm_compute. reflexivity.
  - vm_compute. reflexivity.
Defined.

(** * Instances *)

Lemma idle_recent_window_gives_minus_100_witness :
  outcome (detect_volume_spike Scenarios.now MoreScenarios.baseline_only
             "MINT" 5 15 None) = Ok None.
Proof.
  apply (idle_recent_window_gives_minus_100 Scenarios.now
           MoreScenarios.baseline_only "MINT" 5 15 None).
  - vm_compute. reflexivity.
  - vm_compute. discriminate.
  - vm_compute. reflexivity.
Defined.

Lemma volume_severity_at_least_threshold_tier_witness :
  severity_le MEDIUM
    (vs_severity
       (fired "MINT" 500 2 100 1 (Fin ((500 - 100) / 100 * 100)%Q))).
Proof.
  apply (volume_severity_at_least_threshold_tier Scenarios.now
           Scenarios.scenario_a "MINT" 5 15 None).
  vm_compute. reflexivity.
Defined.

Lemma lower_threshold_keeps_volume_signal_witness :
  outcome (detect_volume_spike Scenarios.now Scenarios.scenario_a "MINT"
             5 15 (Some 300%Q))
  = Ok (Some (fired "MINT" 500 2 100 1 (Fin ((500 - 100) / 100 * 100)%Q))).
Proof.
  apply (lower_threshold_keeps_volume_signal Scenarios.now
           Scenarios.scenario_a "MINT" 5 15 400%Q 300%Q).
  - vm_compute. discriminate.
  - vm_compute. reflexivity.
Defined.

Lemma unknown_mint_yields_nothing_witness :
  detect_volume_spike Scenarios.now Scenarios.scenario_a "OTHER" 5 15 None
  = ret None
  /\ detect_whale_accumulation Scenarios.scenario_a "OTHER" None None
     = ret [].
Proof.
  apply (unknown_mint_yields_nothing Scenarios.now Scenarios.scenario_a
           "OTHER" 5 15 None None None).
  repeat constructor; discriminate.
Defined.

Lemma higher_threshold_filters_whale_signals_witness :
  exists signals signals',
    outcome (detect_whale_accumulation Scenarios.scenario_c "MINT"
               Scenarios.five_minutes (Some 5%Q)) = Ok signals
    /\ outcome (detect_whale_accumulation Scenarios.scenario_c "MINT"
                  Scenarios.five_minutes (Some 10%Q)) = Ok signals'
    /\ Permutation signals'
         (filter (fun s => Qle_bool 10 (total_sol_accumulated s)) signals).
Proof.
  apply (higher_threshold_filters_whale_signals Scenarios.scenario_c "MINT"
           Scenarios.five_minutes 5%Q 10%Q).
  vm_compute. discriminate.
Defined.

Lemma whale_signal_lies_in_window_witness :
  exists signals,
    outcome (detect_whale_accumulation Scenarios.scenario_c "MINT"
               Scenarios.five_minutes Scenarios.ten_sol) = Ok signals
    /\ forall s, In s signals ->
         (0 <= first_trade_at s)%Z
         /\ (last_trade_at s <= 0 + first_window Scenarios.five_minutes)%Z.
Proof.
  apply (whale_signal_lies_in_window Scenarios.scenario_c "MINT"
           Scenarios.five_minutes Scenarios.ten_sol 0%Z).
  reflexivity.
Defined.


Lemma cycle_on_unrelated_batch_witness :
  snd (run_analysis_cycle MoreScenarios.fixed_clock Scenarios.scenario_a
         ["OTHER"%string] init) = Ok []
  /\ signal_count
       (fst (run_analysis_cycle MoreScenarios.fixed_clock
               Scenarios.scenario_a ["OTHER"%string] init))
     = signal_count init
  /\ panel_signals
       (printed
          (fst (run_analysis_cycle MoreScenarios.fixed_clock
                  Scenarios.scenario_a ["OTHER"%string] init)))
     = panel_signals (printed init).
Proof.
  apply (cycle_on_unrelated_batch MoreScenarios.fixed_clock
           Scenarios.scenario_a ["OTHER"%string] init).
  repeat constructor; intros [H|[]]; discriminate.
Defined.

Lemma lookback_covers_volume_windows_witness :
  Permutation
    (recent_trades (MoreScenarios.table_now + 1)%Z
       (fetch_recent_pumpfun_trades MoreScenarios.table_now
          MoreScenarios.table None)
       "MINT" 5)
    (recent_trades (MoreScenarios.table_now + 1)%Z
       (map frame_row MoreScenarios.table) "MINT" 5).
Proof.
  apply (lookback_covers_volume_windows MoreScenarios.table_now
           (MoreScenarios.table_now + 1)%Z MoreScenarios.table "MINT" 5 15).
  - vm_compute. discriminate.
  - vm_compute. discriminate.
  - vm_compute. discriminate.
Defined.

Lemma desc_batch_last_is_earliest_witness :
  exists signals,
    outcome (detect_whale_accumulation Scenarios.two_buys_desc "MINT"
               Scenarios.five_minutes Scenarios.ten_sol) = Ok signals
    /\ Forall2
         (fun c s =>
            exists r,
              In r (window_buys Scenarios.two_buys_desc "MINT"
                      Scenarios.five_minutes (trader_address s))
              /\ observed_at r = first_trade_at s
              /\ last_sol_reserves c = virtual_sol_reserves r
              /\ last_token_reserves c = virtual_token_reserves r)
         (whale_candidates
            (early_trades Scenarios.two_buys_desc "MINT"
               Scenarios.five_minutes)
            (threshold_of Scenarios.ten_sol))
         signals.
Proof.
  apply (desc_batch_last_is_earliest Scenarios.two_buys_desc "MINT"
           Scenarios.five_minutes Scenarios.ten_sol).
  simpl. repeat split; repeat constructor; vm_compute; discriminate.
Defined.
